(** * databricks_cli.pipelines.api: library staging and spec rewrite

    A shallow embedding of [src/databricks_cli/pipelines/api.py]
    ([PipelinesApi] and [LibraryObject]) together with the properties the
    specification states about it.

    Python values are modelled as follows.
    - [str] is [string]; slicing, [startswith], [lower], [find] and [rfind]
      are written out below.  Characters are 8-bit; every character the code
      inspects (scheme characters, [':'], ['/'], ['.']) is ASCII.
    - [bytes] is [list byte].
    - a [dict] that the code iterates over (a library) is the list of its
      items, in the order [items()] yields them; a [dict] that it only
      builds or looks up is a [gmap].
    - an exception is a value of [exn]; a call that may raise returns
      [exn + A].
    - the collaborators the module imports (the DBFS client, the transport,
      the configuration provider, [urllib], the local file system) are the
      fields of the class [Collaborators]; code that calls them is written
      in the monad [M], which threads the remote store and logs every call
      made to a collaborator. *)

From Stdlib Require Import ZArith NArith Ascii String List Lia.
From Stdlib.Strings Require Import Byte.
From stdpp Require Import base option list gmap strings.
From Equations Require Import Equations.

Local Open Scope string_scope.
Local Open Scope Z_scope.
Local Open Scope list_scope.

(** ** Python string operations *)

Module Py.

(** [s[n:]] *)
Fixpoint slice_from (n : nat) (s : string) : string :=
  match n, s with
  | O, _ => s
  | S n', String _ s' => slice_from n' s'
  | S _, EmptyString => EmptyString
  end.

(** [s[:n]] *)
Fixpoint slice_to (n : nat) (s : string) : string :=
  match n, s with
  | O, _ => EmptyString
  | S n', String c s' => String c (slice_to n' s')
  | S _, EmptyString => EmptyString
  end.

(** [s.startswith(p)] *)
Fixpoint startswith (s p : string) : bool :=
  match p, s with
  | EmptyString, _ => true
  | String a p', String b s' => if Ascii.eqb a b then startswith s' p' else false
  | String _ _, EmptyString => false
  end.

Definition code (c : ascii) : N := N_of_ascii c.

Definition is_upper (c : ascii) : bool := ((65 <=? code c) && (code c <=? 90))%N.
Definition is_lower (c : ascii) : bool := ((97 <=? code c) && (code c <=? 122))%N.
Definition is_digit (c : ascii) : bool := ((48 <=? code c) && (code c <=? 57))%N.

(** [c.isascii() and c.isalpha()] *)
Definition is_ascii_alpha (c : ascii) : bool := is_upper c || is_lower c.

Definition lower_char (c : ascii) : ascii :=
  if is_upper c then ascii_of_N (code c + 32) else c.

(** [s.lower()], on the ASCII letters. *)
Fixpoint lower (s : string) : string :=
  match s with
  | EmptyString => EmptyString
  | String c s' => String (lower_char c) (lower s')
  end.

(** [s.find(c)]: the index of the first occurrence, or [-1]. *)
Fixpoint find_from (i : Z) (c : ascii) (s : string) : Z :=
  match s with
  | EmptyString => -1
  | String a s' => if Ascii.eqb a c then i else find_from (i + 1) c s'
  end.

Definition find (c : ascii) (s : string) : Z := find_from 0 c s.

(** [s.rfind(c)]: the index of the last occurrence, or [-1]. *)
Fixpoint rfind_from (i : Z) (last : Z) (c : ascii) (s : string) : Z :=
  match s with
  | EmptyString => last
  | String a s' => rfind_from (i + 1) (if Ascii.eqb a c then i else last) c s'
  end.

Definition rfind (c : ascii) (s : string) : Z := rfind_from 0 (-1) c s.

(** [c in s] *)
Fixpoint contains (c : ascii) (s : string) : bool :=
  match s with
  | EmptyString => false
  | String a s' => Ascii.eqb a c || contains c s'
  end.

(** [all(p(c) for c in s)] *)
Fixpoint all_chars (p : ascii -> bool) (s : string) : bool :=
  match s with
  | EmptyString => true
  | String a s' => p a && all_chars p s'
  end.

(** [s.lstrip(chars)], the set of characters given as a predicate. *)
Fixpoint lstrip (p : ascii -> bool) (s : string) : string :=
  match s with
  | EmptyString => EmptyString
  | String a s' => if p a then lstrip p s' else s
  end.

(** [s] without the characters satisfying [p]
    (the effect of replacing each of them by the empty string). *)
Fixpoint remove_chars (p : ascii -> bool) (s : string) : string :=
  match s with
  | EmptyString => EmptyString
  | String a s' => if p a then remove_chars p s' else String a (remove_chars p s')
  end.

(** The prefix of [s] before the first character satisfying [p]. *)
Fixpoint take_until (p : ascii -> bool) (s : string) : string :=
  match s with
  | EmptyString => EmptyString
  | String a s' => if p a then EmptyString else String a (take_until p s')
  end.

End Py.

(** ** Exceptions *)

(** The exceptions that leave the functions of the module.  [RuntimeError]
    is what [api.py] raises itself, with its message;
    [InvalidConfigurationError] is [InvalidConfigurationError.for_profile];
    [KeyError] is a failed [dict] subscript; [ValueError] is raised by
    [urlsplit]; [Propagated] is an exception of a collaborator that the
    module does not catch, with its text. *)
Inductive exn : Type :=
| RuntimeError (msg : string)
| InvalidConfigurationError (profile : option string)
| KeyError (key : string)
| ValueError (msg : string)
| Propagated (text : string).

#[export] Instance exn_eq_dec : EqDecision exn.
Proof. solve_decision. Defined.

(** ** [urllib.parse.urlsplit(url).scheme]

    The scheme computed by CPython 3.11's [urlsplit]: leading C0 control
    characters and spaces are stripped, tab, CR and LF are removed, and the
    text before the first [':'] is the scheme when it is non-empty, starts
    with an ASCII letter and holds only scheme characters; the scheme is
    lower-cased, and is [''] otherwise.  When the rest starts with ['//'],
    a network location with only one of the two square brackets raises
    [ValueError]; the further validation of a bracketed host and of a
    network location that is not ASCII is not part of this model.  The
    functions below take [urlsplit] from the collaborators, and this model
    is the one of the simulated environment. *)
Module Urllib.

Definition scheme_char (c : ascii) : bool :=
  Py.is_lower c || Py.is_upper c || Py.is_digit c
  || Ascii.eqb c "+" || Ascii.eqb c "-" || Ascii.eqb c ".".

Definition c0_control_or_space (c : ascii) : bool := (Py.code c <=? 32)%N.

Definition unsafe_url_byte (c : ascii) : bool :=
  (Py.code c =? 9)%N || (Py.code c =? 13)%N || (Py.code c =? 10)%N.

Definition netloc_delim (c : ascii) : bool :=
  Ascii.eqb c "/" || Ascii.eqb c "?" || Ascii.eqb c "#".

Definition first_is_ascii_alpha (url : string) : bool :=
  match url with
  | String c _ => Py.is_ascii_alpha c
  | EmptyString => false
  end.

(** The pair [(scheme, url)] after the scheme has been split off. *)
Definition split_scheme (url0 : string) : string * string :=
  let url := Py.lstrip c0_control_or_space url0 in
  let url := Py.remove_chars unsafe_url_byte url in
  let i := Py.find ":" url in
  if (0 <? i) && first_is_ascii_alpha url
     && Py.all_chars scheme_char (Py.slice_to (Z.to_nat i) url)
  then (Py.lower (Py.slice_to (Z.to_nat i) url), Py.slice_from (Z.to_nat (i + 1)) url)
  else (EmptyString, url).

Definition urlsplit_scheme (url0 : string) : exn + string :=
  let '(scheme, url) := split_scheme url0 in
  if Py.startswith url "//" then
    let netloc := Py.take_until netloc_delim (Py.slice_from 2 url) in
    if xorb (Py.contains "[" netloc) (Py.contains "]" netloc)
    then inl (ValueError "Invalid IPv6 URL")
    else inr scheme
  else inr scheme.

End Urllib.

(** ** [os.path.splitext] (POSIX) *)

Module OsPath.

(** The [while filenameIndex < dotIndex] loop of [genericpath._splitext]:
    [true] when a character other than ['.'] is found in
    [p[filenameIndex:dotIndex]].  [n] counts the iterations left. *)
Fixpoint has_root (p : string) (filenameIndex : nat) (n : nat) : bool :=
  match n with
  | O => false
  | S n' =>
      if String.eqb (Py.slice_to 1 (Py.slice_from filenameIndex p)) "."
      then has_root p (S filenameIndex) n'
      else true
  end.

(** [os.path.splitext(p)], with [sep = '/'], no [altsep], [extsep = '.']. *)
Definition splitext (p : string) : string * string :=
  let sepIndex := Py.rfind "/" p in
  let dotIndex := Py.rfind "." p in
  if (sepIndex <? dotIndex)
     && has_root p (Z.to_nat (sepIndex + 1)) (Z.to_nat (dotIndex - (sepIndex + 1)))
  then (Py.slice_to (Z.to_nat dotIndex) p, Py.slice_from (Z.to_nat dotIndex) p)
  else (p, EmptyString).

End OsPath.


(** ** [hashlib.sha1]

    SHA-1 as FIPS 180-4 defines it, on 32-bit words held in [Z].  A hash
    object accumulates what [update] is given; [hexdigest] is the digest of
    the concatenation, in lower-case hexadecimal. *)

Module Hashlib.

Definition w32 (x : Z) : Z := x mod 2 ^ 32.

Definition add32 (a b : Z) : Z := w32 (a + b).

Definition rotl (n : Z) (x : Z) : Z :=
  w32 (Z.lor (Z.shiftl x n) (Z.shiftr x (32 - n))).

Definition not32 (x : Z) : Z := Z.lxor x 0xFFFFFFFF.

(** The [k] low bytes of [x], most significant first. *)
Fixpoint be_bytes (k : nat) (x : Z) : list Z :=
  match k with
  | O => []
  | S k' => (Z.shiftr x (8 * Z.of_nat k')) mod 256 :: be_bytes k' x
  end.

Definition be_word (bs : list Z) : Z := fold_left (fun acc b => acc * 256 + b) bs 0.

(** Message padding: a 1 bit, zeros up to 56 modulo 64 bytes, and the
    length in bits on 64 bits. *)
Definition pad (msg : list Z) : list Z :=
  let l := Z.of_nat (length msg) in
  msg ++ [128] ++ repeat 0 (Z.to_nat ((55 - l) mod 64)) ++ be_bytes 8 (8 * l).

(** The first [n] consecutive chunks of [k] elements. *)
Fixpoint chunks {A} (k n : nat) (l : list A) : list (list A) :=
  match n with
  | O => []
  | S n' => firstn k l :: chunks k n' (skipn k l)
  end.

(** The message schedule, built most recent word first. *)
Fixpoint expand (n : nat) (w : list Z) : list Z :=
  match n with
  | O => w
  | S n' =>
      expand n'
        (rotl 1 (Z.lxor (Z.lxor (nth 2 w 0) (nth 7 w 0))
                        (Z.lxor (nth 13 w 0) (nth 15 w 0))) :: w)
  end.

Definition schedule (block : list Z) : list Z :=
  rev (expand 64 (rev (map be_word (chunks 4 16 block)))).

Record hash_value := H5 { ha : Z; hb : Z; hc : Z; hd : Z; he : Z }.

Definition f_t (t : nat) (b c d : Z) : Z :=
  if (t <? 20)%nat then Z.lor (Z.land b c) (Z.land (not32 b) d)
  else if (t <? 40)%nat then Z.lxor (Z.lxor b c) d
  else if (t <? 60)%nat then Z.lor (Z.lor (Z.land b c) (Z.land b d)) (Z.land c d)
  else Z.lxor (Z.lxor b c) d.

Definition k_t (t : nat) : Z :=
  if (t <? 20)%nat then 0x5A827999
  else if (t <? 40)%nat then 0x6ED9EBA1
  else if (t <? 60)%nat then 0x8F1BBCDC
  else 0xCA62C1D6.

Definition round (t : nat) (wt : Z) (h : hash_value) : hash_value :=
  let temp :=
    add32 (add32 (add32 (add32 (rotl 5 (ha h)) (f_t t (hb h) (hc h) (hd h))) (he h))
                 (k_t t)) wt in
  H5 temp (ha h) (rotl 30 (hb h)) (hc h) (hd h).

Fixpoint rounds (t : nat) (ws : list Z) (h : hash_value) : hash_value :=
  match ws with
  | [] => h
  | wt :: ws' => rounds (S t) ws' (round t wt h)
  end.

Definition compress (h : hash_value) (block : list Z) : hash_value :=
  let r := rounds 0 (schedule block) h in
  H5 (add32 (ha h) (ha r)) (add32 (hb h) (hb r)) (add32 (hc h) (hc r))
     (add32 (hd h) (hd r)) (add32 (he h) (he r)).

Definition initial : hash_value :=
  H5 0x67452301 0xEFCDAB89 0x98BADCFE 0x10325476 0xC3D2E1F0.

Definition digest (msg : list byte) : hash_value :=
  let padded := pad (map (fun b => Z.of_N (Byte.to_N b)) msg) in
  fold_left compress (chunks 64 (length padded / 64) padded) initial.

Definition hex_digit (x : Z) : ascii :=
  if x <? 10 then ascii_of_N (Z.to_N (48 + x)) else ascii_of_N (Z.to_N (87 + x)).

(** The [k] low hexadecimal digits of [x], followed by [rest]. *)
Fixpoint hex (k : nat) (x : Z) (rest : string) : string :=
  match k with
  | O => rest
  | S k' => String (hex_digit ((Z.shiftr x (4 * Z.of_nat k')) mod 16)) (hex k' x rest)
  end.

Definition hex_of (h : hash_value) : string :=
  hex 8 (ha h) (hex 8 (hb h) (hex 8 (hc h) (hex 8 (hd h) (hex 8 (he h) EmptyString)))).

(** The hash object. *)
Record sha1_object := Sha1 { fed : list byte }.

Definition sha1 : sha1_object := Sha1 [].

Definition update (h : sha1_object) (data : list byte) : sha1_object :=
  Sha1 (fed h ++ data).

Definition hexdigest (h : sha1_object) : string := hex_of (digest (fed h)).

End Hashlib.

(** ** Data model *)

(** [class LibraryObject]: a library type and a path.  The path is a [str]
    everywhere but in the upload plan, where [_get_files_to_upload] wraps
    the remote path in a [DbfsPath]; the record is therefore generic in the
    type of the path.  [__eq__] compares both fields, which is Leibniz
    equality of the record. *)
Record LibraryObject (P : Type) : Type :=
  LibObj { lib_type : string; path : P }.

Arguments LibObj {P} lib_type path.
Arguments lib_type {P} _.
Arguments path {P} _.

#[export] Instance LibraryObject_eq_dec `{EqDecision P} : EqDecision (LibraryObject P).
Proof. solve_decision. Defined.

(** [databricks_cli.dbfs.dbfs_path.DbfsPath]: a wrapper around the absolute
    path.  Its constructor validates the path; see [DbfsPath_validate]. *)
Record DbfsPath : Type := MkDbfsPath { absolute_path : string }.

#[export] Instance DbfsPath_eq_dec : EqDecision DbfsPath.
Proof. solve_decision. Defined.

(** A library of the specification: a [dict] from library type to path,
    given by its items in the order [library.items()] yields them (the
    order of insertion).  The keys of a [dict] are distinct; nothing below
    depends on it. *)
Abbreviation Library := (list (string * string)).

(** The value of [spec['credentials']]: a [dict] whose values are the
    attributes of the configuration, possibly [None]. *)
Abbreviation Credentials := (gmap string (option string)).

(** The pipeline specification: a [dict] of which [deploy] reads
    ['libraries'] and ['id'] and writes ['libraries'] and ['credentials'].
    Each of these keys is absent ([None]) or bound to a value of the type
    the input shape gives it; the other entries are kept in [spec_other]. *)
Record Spec : Type := MkSpec {
  spec_libraries : option (list Library);
  spec_id : option string;
  spec_credentials : option Credentials;
  spec_other : gmap string string
}.

(** [spec['libraries'] = libraries] *)
Definition set_libraries (libraries : list Library) (spec : Spec) : Spec :=
  MkSpec (Some libraries) (spec_id spec) (spec_credentials spec) (spec_other spec).

(** [spec['credentials'] = credentials] *)
Definition set_credentials (credentials : Credentials) (spec : Spec) : Spec :=
  MkSpec (spec_libraries spec) (spec_id spec) (Some credentials) (spec_other spec).

(** What [_get_credentials_for_request] reads of a [DatabricksConfig]. *)
Record DatabricksConfig : Type := MkConfig {
  is_valid : bool;
  is_valid_with_token : bool;
  token : option string;
  username : option string;
  password : option string
}.

Abbreviation Headers := (gmap string string).

(** ** [class LibraryObject]: conversions *)

(** [LibraryObject.convert_from_libraries]: one object per item of every
    library, in the order of the list. *)
Definition convert_from_libraries (libraries : list Library)
  : list (LibraryObject string) :=
  concat (map (fun library : Library =>
                 map (fun item : string * string => LibObj (fst item) (snd item))
                     library)
              libraries).

(** [LibraryObject.convert_to_libraries]: one single-key [dict] per object. *)
Definition convert_to_libraries (lib_objects : list (LibraryObject string))
  : list Library :=
  map (fun lib_object => [(lib_type lib_object, path lib_object)]) lib_objects.

(** ** Collaborators *)

(** A call to a collaborator, as recorded in the log. *)
Inductive call : Type :=
| FileExists (dbfs_path : DbfsPath)
| PutFile (src_path : string) (dbfs_path : DbfsPath) (overwrite : bool)
| PerformQuery (method : string) (resource : string) (data : Spec)
               (headers : option Headers).

(** What [api.py] imports and calls.
    - [Dbfs] is the state of the remote store.
    - [urlsplit_scheme url] is [urllib.parse.urlsplit(url).scheme], or the
      exception [urlsplit] raises.
    - [open_rb path] is the content read from [open(path, 'rb')], or the
      text of the exception raised while opening or reading.
    - [DbfsPath_validate p] is the exception [DbfsPath(p)] raises, if any.
    - [file_exists] and [put_file] are the methods of [DbfsApi];
      [put_file] gives the text of the exception it raises, if any, and the
      store it leaves.
    - [get_profile_from_context], [ProfileConfigProvider_get_config] and
      [get_config] come from [databricks_cli.configure]; a configuration
      is [None] when there is none.
    - [perform_query] is the transport; it gives the exception it raises,
      if any. *)
Class Collaborators : Type := {
  Dbfs : Type;
  urlsplit_scheme : string -> exn + string;
  open_rb : string -> string + list byte;
  DbfsPath_validate : string -> option exn;
  file_exists : Dbfs -> DbfsPath -> bool;
  put_file : Dbfs -> string -> DbfsPath -> bool -> (string + unit) * Dbfs;
  get_profile_from_context : option string;
  ProfileConfigProvider_get_config : string -> option DatabricksConfig;
  get_config : option DatabricksConfig;
  perform_query : string -> string -> Spec -> option Headers -> option exn
}.

(** [BUFFER_SIZE = 1024 * 64] *)
Definition BUFFER_SIZE : nat := 1024 * 64.

(** [base_pipelines_dir = 'dbfs:/pipelines/code/'] *)
Definition base_pipelines_dir : string := "dbfs:/pipelines/code/".

(** Where the loop body of [_partition_libraries_and_extract_local_paths]
    appends a library object. *)
Inductive placement : Type :=
| ToLocal (lib_object : LibraryObject string)
| ToRest (lib_object : LibraryObject string).

(** A value together with the equation that names it, for the [with]
    clause of [read_loop]. *)
Definition inspect {A} (a : A) : {b : A | a = b} := exist _ a eq_refl.

(** The reading loop of [_get_hashed_path]: [f.read(BUFFER_SIZE)] takes the
    next [BUFFER_SIZE] bytes of what is left of the file, fewer at its end;
    the loop stops at the first empty read. *)
Equations read_loop (hash_buffer : Hashlib.sha1_object) (f : list byte)
  : Hashlib.sha1_object by wf (length f) lt :=
  read_loop hash_buffer f with inspect (firstn BUFFER_SIZE f) := {
    | exist _ [] _ => hash_buffer
    | exist _ (b :: data) _ =>
        read_loop (Hashlib.update hash_buffer (b :: data)) (skipn BUFFER_SIZE f)
  }.
Next Obligation.
  match goal with H : firstn _ _ = _ :: _ |- _ => revert H end.
  generalize BUFFER_SIZE. intros n Hread.
  destruct n as [|n]; [discriminate|].
  destruct f as [|x f]; [discriminate|].
  simpl. rewrite length_skipn. lia.
Qed.

(** ** [class PipelinesApi] *)

Section PipelinesApi.

Context `{C : Collaborators}.

(** The remote store and the log of the calls made to the collaborators,
    oldest first. *)
Record World : Type := MkWorld { dbfs : Dbfs; calls : list call }.

(** A computation that may raise, may call the collaborators and may
    change the remote store. *)
Definition M (A : Type) : Type := World -> (exn + A) * World.

Definition ret {A} (a : A) : M A := fun w => (inr a, w).

Definition raise {A} (e : exn) : M A := fun w => (inl e, w).

Definition bind {A B} (m : M A) (k : A -> M B) : M B :=
  fun w =>
    match m w with
    | (inl e, w') => (inl e, w')
    | (inr a, w') => k a w'
    end.

(** A computation that only returns or raises. *)
Definition lift {A} (r : exn + A) : M A := fun w => (r, w).

Definition logged (c : call) (w : World) : World :=
  MkWorld (dbfs w) (calls w ++ [c]).

Notation "'do' x <- m 'in' k" := (bind m (fun x => k))
  (at level 10, x name, m at level 100, k at level 200).

(** [self.dbfs_client.file_exists(dbfs_path)] *)
Definition call_file_exists (dbfs_path : DbfsPath) : M bool :=
  fun w => (inr (file_exists (dbfs w) dbfs_path), logged (FileExists dbfs_path) w).

(** [self.dbfs_client.put_file(src_path, dbfs_path, overwrite)] inside
    [try ... except Exception as e]: the result is the text of [e], or
    [tt] when nothing was raised. *)
Definition call_put_file (src_path : string) (dbfs_path : DbfsPath) (overwrite : bool)
  : M (string + unit) :=
  fun w =>
    let '(r, d) := put_file (dbfs w) src_path dbfs_path overwrite in
    (inr r, MkWorld d (calls w ++ [PutFile src_path dbfs_path overwrite])).

(** [self.client.client.perform_query(method, resource, data=data,
    headers=headers)] *)
Definition call_perform_query (method resource : string) (data : Spec)
           (headers : option Headers) : M unit :=
  fun w =>
    (match perform_query method resource data headers with
     | Some e => inl e
     | None => inr tt
     end,
     logged (PerformQuery method resource data headers) w).

(** [DbfsPath(p)] *)
Definition new_DbfsPath (p : string) : exn + DbfsPath :=
  match DbfsPath_validate p with
  | Some e => inl e
  | None => inr (MkDbfsPath p)
  end.

(** The body of the loop of [_partition_libraries_and_extract_local_paths]
    for one library object. *)
Definition place (lib_object : LibraryObject string) : exn + placement :=
  match urlsplit_scheme (path lib_object) with
  | inl e => inl e
  | inr uri_scheme =>
      if String.eqb (lib_type lib_object) "jar" && String.eqb uri_scheme EmptyString
      then inr (ToLocal lib_object)
      else if String.eqb (lib_type lib_object) "jar"
              && String.eqb (Py.lower uri_scheme) "file"
      then
        if Py.startswith (Py.slice_from 4 (path lib_object)) ":////"
        then inl (RuntimeError "Invalid file uri scheme")
        else inr (ToLocal (LibObj (lib_type lib_object)
                                  (Py.slice_from 5 (path lib_object))))
      else inr (ToRest lib_object)
  end.

(** The loop of [_partition_libraries_and_extract_local_paths], with the
    two lists it appends to. *)
Fixpoint partition_loop (local_lib_objects rest_lib_objects : list (LibraryObject string))
         (lib_objects : list (LibraryObject string))
  : exn + (list (LibraryObject string) * list (LibraryObject string)) :=
  match lib_objects with
  | [] => inr (local_lib_objects, rest_lib_objects)
  | lib_object :: lib_objects' =>
      match place lib_object with
      | inl e => inl e
      | inr (ToLocal lo) =>
          partition_loop (local_lib_objects ++ [lo]) rest_lib_objects lib_objects'
      | inr (ToRest lo) =>
          partition_loop local_lib_objects (rest_lib_objects ++ [lo]) lib_objects'
      end
  end.

(** [PipelinesApi._partition_libraries_and_extract_local_paths] *)
Definition _partition_libraries_and_extract_local_paths
           (lib_objects : list (LibraryObject string))
  : exn + (list (LibraryObject string) * list (LibraryObject string)) :=
  partition_loop [] [] lib_objects.

(** [PipelinesApi._get_hashed_path] *)
Definition _get_hashed_path (path : string) : exn + string :=
  match open_rb path with
  | inl e => inl (RuntimeError ("Error '" +:+ e +:+ "' while processing " +:+ path))
  | inr f =>
      let hash_buffer := read_loop Hashlib.sha1 f in
      let file_hash := Hashlib.hexdigest hash_buffer in
      inr (base_pipelines_dir +:+ file_hash +:+ snd (OsPath.splitext path))
  end.

(** [list(map(lambda llo: LibraryObject(llo.lib_type,
    self._get_hashed_path(llo.path)), local_lib_objects))] in [deploy]. *)
Fixpoint hashed_lib_objects (local_lib_objects : list (LibraryObject string))
  : exn + list (LibraryObject string) :=
  match local_lib_objects with
  | [] => inr []
  | llo :: rest =>
      match _get_hashed_path (path llo) with
      | inl e => inl e
      | inr p =>
          match hashed_lib_objects rest with
          | inl e => inl e
          | inr remote => inr (LibObj (lib_type llo) p :: remote)
          end
      end
  end.

(** [PipelinesApi._get_files_to_upload]: [zip] pairs the two lists up to
    the shorter one; [map], [zip] and [filter] being lazy (Python 3),
    [list] runs them pair by pair: in order, the remote path is wrapped in
    a [DbfsPath] and the store is asked whether it exists; the pair is kept
    when it does not. *)
Fixpoint _get_files_to_upload (local_lib_objects remote_lib_objects : list (LibraryObject string))
  : M (list (LibraryObject string * LibraryObject DbfsPath)) :=
  match local_lib_objects, remote_lib_objects with
  | llo :: local', rlo :: remote' =>
      do p <- lift (new_DbfsPath (path rlo)) in
      let transformed := LibObj (lib_type rlo) p in
      do present <- call_file_exists (path transformed) in
      do files <- _get_files_to_upload local' remote' in
      ret (if present then files else (llo, transformed) :: files)
  | _, _ => ret []
  end.

(** The upload loop of [deploy]. *)
Fixpoint upload_loop (upload_files : list (LibraryObject string * LibraryObject DbfsPath))
  : M unit :=
  match upload_files with
  | [] => ret tt
  | (llo, rlo) :: upload_files' =>
      do r <- call_put_file (path llo) (path rlo) false in
      match r with
      | inl e =>
          raise (RuntimeError ("Error '" +:+ e +:+ "' while uploading " +:+ path llo))
      | inr _ => upload_loop upload_files'
      end
  end.

(** [if profile:] *)
Definition truthy (profile : option string) : option string :=
  match profile with
  | Some EmptyString => None
  | p => p
  end.

(** [PipelinesApi._get_credentials_for_request] *)
Definition _get_credentials_for_request : exn + Credentials :=
  let profile := get_profile_from_context in
  let config :=
    match truthy profile with
    | Some p => ProfileConfigProvider_get_config p
    | None => get_config
    end in
  match config with
  | None => inl (InvalidConfigurationError profile)
  | Some config =>
      if negb (is_valid config) then inl (InvalidConfigurationError profile)
      else if is_valid_with_token config
      then inr {[ "token" := token config ]}
      else inr (<[ "user" := username config ]> {[ "password" := password config ]})
  end.

(** [spec['id']] *)
Definition spec_getitem_id (spec : Spec) : exn + string :=
  match spec_id spec with
  | Some id => inr id
  | None => inl (KeyError "id")
  end.

(** The end of [deploy], from the assignment to [spec['libraries']] on:
    the library list is rewritten, the credentials are attached, and the
    specification is submitted.  [spec] is the [dict] of the caller, and
    the two assignments change it in place: the result comes with that
    [dict] as the call leaves it, also when the call raises. *)
Definition rewrite_and_submit (spec : Spec) (headers : option Headers)
           (rest_lib_objects remote_lib_objects : list (LibraryObject string))
           (w : World) : ((exn + unit) * Spec) * World :=
  let spec := set_libraries (convert_to_libraries (rest_lib_objects ++ remote_lib_objects))
                            spec in
  match _get_credentials_for_request with
  | inl e => ((inl e, spec), w)
  | inr credentials =>
      let spec := set_credentials credentials spec in
      match spec_getitem_id spec with
      | inl e => ((inl e, spec), w)
      | inr id =>
          let '(r, w') := call_perform_query "PUT" ("/pipelines/" +:+ id) spec headers w in
          ((r, spec), w')
      end
  end.

(** [PipelinesApi.deploy]: the result, the [dict] of the caller as the
    call leaves it, and the world.  Up to the upload loop the [dict] is not
    assigned to, and an exception raised there leaves it as it was. *)
Definition deploy (spec : Spec) (headers : option Headers) (w : World)
  : ((exn + unit) * Spec) * World :=
  let lib_objects := convert_from_libraries (default [] (spec_libraries spec)) in
  let staged :=
    (do parts <- lift (_partition_libraries_and_extract_local_paths lib_objects) in
     let local_lib_objects := fst parts in
     let rest_lib_objects := snd parts in
     do remote_lib_objects <- lift (hashed_lib_objects local_lib_objects) in
     do upload_files <- _get_files_to_upload local_lib_objects remote_lib_objects in
     do _ <- upload_loop upload_files in
     ret (rest_lib_objects, remote_lib_objects)) w in
  match staged with
  | (inl e, w') => ((inl e, spec), w')
  | (inr staged_lib_objects, w') =>
      rewrite_and_submit spec headers (fst staged_lib_objects) (snd staged_lib_objects) w'
  end.

(** A run of [deploy] from a store, with an empty log: its result and the
    world it leaves. *)
Definition run_deploy (spec : Spec) (headers : option Headers) (d : Dbfs)
  : (exn + unit) * World :=
  let r := deploy spec headers (MkWorld d []) in (fst (fst r), snd r).

(** The [dict] of the caller after that run. *)
Definition spec_after_deploy (spec : Spec) (headers : option Headers) (d : Dbfs) : Spec :=
  snd (fst (deploy spec headers (MkWorld d []))).

(** The result and the world of [rewrite_and_submit]. *)
Definition submit_outcome (spec : Spec) (headers : option Headers)
           (rest_lib_objects remote_lib_objects : list (LibraryObject string)) : M unit :=
  fun w =>
    let r := rewrite_and_submit spec headers rest_lib_objects remote_lib_objects w in
    (fst (fst r), snd r).

End PipelinesApi.

(** ** The statements of the specification *)

Section Statements.

Context `{C : Collaborators}.

(** Classification rules 1 to 4: a reference is local when its kind is
    ["jar"] and its path has no scheme or the scheme [file]. *)
Definition is_local (lo : LibraryObject string) : bool :=
  match urlsplit_scheme (path lo) with
  | inr scheme =>
      String.eqb (lib_type lo) "jar"
      && (String.eqb scheme EmptyString || String.eqb (Py.lower scheme) "file")
  | inl _ => false
  end.

(** The local reference kept for a local input: the input itself for a
    bare path, the input without the first five characters of its path
    for a [file] path. *)
Definition local_form (lo : LibraryObject string) : LibraryObject string :=
  match urlsplit_scheme (path lo) with
  | inr EmptyString => lo
  | _ => LibObj (lib_type lo) (Py.slice_from 5 (path lo))
  end.

(** The remote reference as the planner holds it. *)
Definition transformed (rlo : LibraryObject string) : LibraryObject DbfsPath :=
  LibObj (lib_type rlo) (MkDbfsPath (path rlo)).

(** The upload plan: the pairs whose remote path the store [d] reports
    absent. *)
Definition plan_of (d : Dbfs) (local remote : list (LibraryObject string))
  : list (LibraryObject string * LibraryObject DbfsPath) :=
  List.filter (fun pr => negb (file_exists d (path (snd pr))))
              (combine local (map transformed remote)).

(** The existence queries of the planner. *)
Definition queries_of (remote : list (LibraryObject string)) : list call :=
  map (fun rlo => FileExists (MkDbfsPath (path rlo))) remote.

(** The upload call for a pair of the plan. *)
Definition put_call (pr : LibraryObject string * LibraryObject DbfsPath) : call :=
  PutFile (path (fst pr)) (path (snd pr)) false.

(** The store after every pair of [pairs] has been uploaded in order, when
    all these uploads succeed. *)
Fixpoint store_after_uploads (d : Dbfs)
         (pairs : list (LibraryObject string * LibraryObject DbfsPath)) : option Dbfs :=
  match pairs with
  | [] => Some d
  | pr :: pairs' =>
      match put_file d (path (fst pr)) (path (snd pr)) false with
      | (inr _, d') => store_after_uploads d' pairs'
      | (inl _, _) => None
      end
  end.

(** A call that is not a submission. *)
Definition not_submission (c : call) : Prop :=
  match c with
  | PerformQuery _ _ _ _ => False
  | _ => True
  end.

(** An existence query. *)
Definition is_query (c : call) : Prop :=
  match c with
  | FileExists _ => True
  | _ => False
  end.

(** What [deploy] submits for a specification: the specification with
    its library list rewritten and the credentials attached. *)
Definition submitted_spec (spec : Spec) (rest remote : list (LibraryObject string))
           (credentials : Credentials) : Spec :=
  set_credentials credentials
    (set_libraries (convert_to_libraries (rest ++ remote)) spec).

(** The library objects of a specification. *)
Definition lib_objects_of (spec : Spec) : list (LibraryObject string) :=
  convert_from_libraries (default [] (spec_libraries spec)).

(** The configuration [_get_credentials_for_request] resolves. *)
Definition resolved_config : option DatabricksConfig :=
  match truthy get_profile_from_context with
  | Some p => ProfileConfigProvider_get_config p
  | None => get_config
  end.

(** The two shapes of the credentials. *)
Definition token_shape (c : Credentials) : Prop := dom c = ({[ "token" ]} : gset string).

Definition user_password_shape (c : Credentials) : Prop :=
  dom c = ({[ "user"; "password" ]} : gset string).

End Statements.

(** The single-key mappings of a library, one per entry. *)
Definition entries (library : Library) : list Library :=
  map (fun item : string * string => [(fst item, snd item)]) library.

(** A lower-case hexadecimal digit. *)
Definition is_lower_hex (c : ascii) : bool :=
  Py.is_digit c || ((97 <=? Py.code c) && (Py.code c <=? 102))%N.

(** The index of the last occurrence of [c] in [s], if any. *)
Fixpoint last_index (c : ascii) (s : string) : option nat :=
  match s with
  | EmptyString => None
  | String a s' =>
      match last_index c s' with
      | Some k => Some (S k)
      | None => if Ascii.eqb a c then Some O else None
      end
  end.

(** The text after the last ['/'] of a path, the whole path when it has
    none. *)
Fixpoint final_segment (p : string) : string :=
  match p with
  | EmptyString => EmptyString
  | String c p' =>
      if Py.contains "/" p then final_segment p' else p
  end.

(** A segment split at its last ['.']: what precedes it, and the text from
    the dot on. *)
Fixpoint split_last_dot (seg : string) : option (string * string) :=
  match seg with
  | EmptyString => None
  | String c seg' =>
      match split_last_dot seg' with
      | Some (stem, ext) => Some (String c stem, ext)
      | None => if Ascii.eqb c "." then Some (EmptyString, seg) else None
      end
  end.

(** The extension as the specification words it: the text from the last
    ['.'] of the final segment, empty when there is none. *)
Definition spec_extension (p : string) : string :=
  match split_last_dot (final_segment p) with
  | Some (_, ext) => ext
  | None => EmptyString
  end.

(** The extension of [os.path.splitext]: as above, and empty as well when
    only dots precede the last ['.'] in the final segment. *)
Definition extension (p : string) : string :=
  match split_last_dot (final_segment p) with
  | Some (stem, ext) =>
      if Py.all_chars (fun c => Ascii.eqb c ".") stem then EmptyString else ext
  | None => EmptyString
  end.

(** ** A simulated environment

    Collaborators to run the functions on concrete inputs: [urlsplit] as
    in [Urllib]; a local file system given by the files it holds; a remote
    store that is the list of the paths it holds, on which the upload of
    the local paths in [refused] fails; a [DbfsPath] that must start with
    ['dbfs:/'] and not with ['dbfs://']; one configuration, found with or
    without profile; a transport that accepts every request. *)
Module Sim.

Fixpoint lookup_file (files : list (string * list byte)) (p : string)
  : option (list byte) :=
  match files with
  | [] => None
  | (q, content) :: files' => if String.eqb p q then Some content else lookup_file files' p
  end.

Definition holds (d : list string) (p : DbfsPath) : bool :=
  existsb (String.eqb (absolute_path p)) d.

Definition collaborators (files : list (string * list byte)) (refused : list string)
           (profile : option string) (config : option DatabricksConfig)
  : Collaborators :=
  {| Dbfs := list string;
     urlsplit_scheme := Urllib.urlsplit_scheme;
     open_rb p :=
       match lookup_file files p with
       | Some content => inr content
       | None => inl ("No such file or directory: " +:+ p)
       end;
     DbfsPath_validate p :=
       if Py.startswith p "dbfs:/" && negb (Py.startswith p "dbfs://")
       then None
       else Some (Propagated ("invalid DbfsPath: " +:+ p));
     file_exists := holds;
     put_file d src dst overwrite :=
       if existsb (String.eqb src) refused
       then (inl "upload refused", d)
       else (inr tt, d ++ [absolute_path dst]);
     get_profile_from_context := profile;
     ProfileConfigProvider_get_config _ := config;
     get_config := config;
     perform_query _ _ _ _ := None |}.

Definition token_config : DatabricksConfig :=
  MkConfig true true (Some "dapi123") None None.

Definition password_config : DatabricksConfig :=
  MkConfig true false None (Some "alice") (Some "secret").

Definition plain_env : Collaborators := collaborators [] [] None None.

Definition token_env : Collaborators :=
  collaborators [] [] (Some "prod") (Some token_config).

Definition files_env : Collaborators :=
  collaborators [("/opt/libs/app.tar.jar", [x61; x62; x63]); ("/opt/libs/.jar", [])]
                    [] None (Some token_config).

(** Three local libraries, of contents [abc], empty and [a]; the upload
    of the second one is refused. *)
Definition staging_env : Collaborators :=
  collaborators [("/opt/libs/a.jar", [x61; x62; x63]); ("/opt/libs/b.jar", []);
                 ("/opt/libs/c.jar", [x61])]
                ["/opt/libs/b.jar"] None (Some token_config).

Definition remote_a : string :=
  "dbfs:/pipelines/code/a9993e364706816aba3e25717850c26c9cd0d89d.jar".

Definition remote_b : string :=
  "dbfs:/pipelines/code/da39a3ee5e6b4b0d3255bfef95601890afd80709.jar".

Definition remote_c : string :=
  "dbfs:/pipelines/code/86f7e437faa5a7fce15d1ddcb9eaeaea377667b8.jar".

(** A store that holds the first remote path. *)
Definition store_with_a : list string := [remote_a].

Definition three_local : list (LibraryObject string) :=
  [LibObj "jar" "/opt/libs/a.jar"; LibObj "jar" "/opt/libs/b.jar";
   LibObj "jar" "/opt/libs/c.jar"].

Definition three_remote : list (LibraryObject string) :=
  [LibObj "jar" remote_a; LibObj "jar" remote_b; LibObj "jar" remote_c].

(** A specification with the three local libraries and one remote one. *)
Definition staging_spec : Spec :=
  MkSpec (Some [ [("jar", "/opt/libs/a.jar")]; [("jar", "s3://bucket/d.jar")];
                 [("jar", "file:/opt/libs/b.jar")]; [("jar", "/opt/libs/c.jar")] ])
         (Some "p1") None ∅.

(** A specification with one local library and one remote one. *)
Definition small_spec : Spec :=
  MkSpec (Some [ [("jar", "/opt/libs/a.jar")]; [("whl", "s3://bucket/e.whl")] ])
         (Some "p1") None ∅.

(** The same without ['id']. *)
Definition spec_without_id : Spec :=
  MkSpec (Some [ [("jar", "/opt/libs/a.jar")]; [("whl", "s3://bucket/e.whl")] ])
         None None ∅.

(** The environment of [staging_env] without a configuration. *)
Definition no_config_env : Collaborators :=
  collaborators [("/opt/libs/a.jar", [x61; x62; x63])] [] None None.

(** A profile without a configuration. *)
Definition profile_env : Collaborators := collaborators [] [] (Some "prod") None.

(** Two local libraries with the same content. *)
Definition twin_env : Collaborators :=
  collaborators [("/opt/libs/x.jar", [x61; x62; x63]); ("/srv/y.jar", [x61; x62; x63])]
                [] None (Some token_config).

(** A specification with a local library that does not exist. *)
Definition missing_spec : Spec :=
  MkSpec (Some [ [("jar", "/opt/libs/a.jar")]; [("jar", "/opt/libs/none.jar")] ])
         (Some "p1") None ∅.

(** A specification without libraries. *)
Definition bare_spec : Spec := MkSpec None (Some "p1") None ∅.

End Sim.

(** ** The rest of the module *)

(** What [LibraryObject.__eq__] may be given: a library object or a value
    of another class. *)
Inductive py_object : Type :=
| PyLibraryObject (lib_object : LibraryObject string)
| PyOther.

(** What [__eq__] returns. *)
Inductive eq_result : Type :=
| NotImplemented
| Bool (b : bool).

(** [LibraryObject.__eq__] *)
Definition LibraryObject__eq__ (self : LibraryObject string) (other : py_object)
  : eq_result :=
  match other with
  | PyOther => NotImplemented
  | PyLibraryObject other =>
      Bool (String.eqb (path self) (path other)
            && String.eqb (lib_type self) (lib_type other))
  end.

(** A call to [DeltaPipelinesService.delete]. *)
Inductive service_call : Type :=
| ServiceDelete (pipeline_id : string) (credentials : Credentials)
                (headers : option Headers).

Module PipelinesApi.

Section Delete.

Context `{C : Collaborators}.

(** [self.client.delete]: the exception it raises, if any. *)
Variable client_delete : string -> Credentials -> option Headers -> option exn.

(** [PipelinesApi.delete]: the result and the calls made to the service.
    The credentials are an argument of the call and are resolved first. *)
Definition delete (pipeline_id : string) (headers : option Headers)
  : (exn + unit) * list service_call :=
  match _get_credentials_for_request with
  | inl e => (inl e, [])
  | inr credentials =>
      (match client_delete pipeline_id credentials headers with
       | Some e => inl e
       | None => inr tt
       end,
       [ServiceDelete pipeline_id credentials headers])
  end.

End Delete.

End PipelinesApi.

Section MoreStatements.

Context `{C : Collaborators}.

(** An upload. *)
Definition is_put (c : call) : Prop :=
  match c with
  | PutFile _ _ _ => True
  | _ => False
  end.

(** An upload, without overwriting, of a local library of the
    specification to its hashed path. *)
Definition uploads_local_library (spec : Spec) (c : call) : Prop :=
  exists local rest llo q,
    _partition_libraries_and_extract_local_paths (lib_objects_of spec) = inr (local, rest)
    /\ In llo local
    /\ _get_hashed_path (path llo) = inr q
    /\ c = PutFile (path llo) (MkDbfsPath q) false.

(** A store on which an upload removes nothing. *)
Definition uploads_keep : Prop :=
  forall d src dst overwrite r d' p,
    put_file d src dst overwrite = (r, d') ->
    file_exists d p = true -> file_exists d' p = true.

(** A store on which a successful upload makes its target exist. *)
Definition uploads_record : Prop :=
  forall d src dst overwrite d',
    put_file d src dst overwrite = (inr tt, d') -> file_exists d' dst = true.

(** A reference of kind ["jar"] whose path has the scheme [file]. *)
Definition is_file_jar (lo : LibraryObject string) : bool :=
  match urlsplit_scheme (path lo) with
  | inr scheme => String.eqb (lib_type lo) "jar" && String.eqb (Py.lower scheme) "file"
  | inl _ => false
  end.

End MoreStatements.

(** * Properties *)

(** ** The classifier *)

Section Classifier.

Context `{C : Collaborators}.

Implicit Types (lo : LibraryObject string) (libs : list (LibraryObject string)).

Lemma place_cases lo p :
  place lo = inr p ->
  (p = ToLocal (local_form lo) /\ is_local lo = true)
  \/ (p = ToRest lo /\ is_local lo = false).
Proof.
  unfold place, is_local, local_form.
  destruct (urlsplit_scheme (path lo)) as [e|scheme]; [discriminate|].
  destruct (String.eqb (lib_type lo) "jar") eqn:Hjar; cbn [andb orb].
  - destruct (String.eqb scheme EmptyString) eqn:Hbare; cbn [andb orb].
    + apply String.eqb_eq in Hbare. subst scheme.
      intros [= <-]. left. split; reflexivity.
    + destruct (String.eqb (Py.lower scheme) "file") eqn:Hfile.
      * destruct (Py.startswith (Py.slice_from 4 (path lo)) ":////"); [discriminate|].
        intros [= <-]. left. split; [|reflexivity].
        destruct scheme; [discriminate|reflexivity].
      * intros [= <-]. right. split; reflexivity.
  - intros [= <-]. right. split; reflexivity.
Qed.

Lemma partition_loop_app L R libs1 libs2 :
  partition_loop L R (libs1 ++ libs2) =
  match partition_loop L R libs1 with
  | inl e => inl e
  | inr (l, r) => partition_loop l r libs2
  end.
Proof.
  revert L R. induction libs1 as [|lo libs1 IH]; intros L R; simpl; [reflexivity|].
  destruct (place lo) as [e|[x|x]]; [reflexivity| |]; apply IH.
Qed.

Lemma partition_loop_filter libs : forall L R l r,
  partition_loop L R libs = inr (l, r) ->
  l = L ++ map local_form (List.filter is_local libs)
  /\ r = R ++ List.filter (fun lo => negb (is_local lo)) libs.
Proof.
  induction libs as [|lo libs IH]; intros L R l r; simpl.
  - intros [= <- <-]. rewrite !app_nil_r. split; reflexivity.
  - destruct (place lo) as [e|p] eqn:Hp; [discriminate|].
    destruct (place_cases _ _ Hp) as [[-> Hl]|[-> Hl]]; rewrite Hl; simpl; intros Hrec;
      apply IH in Hrec as [-> ->]; rewrite <- !app_assoc; split; reflexivity.
Qed.

Lemma place_file lo scheme :
  lib_type lo = "jar" ->
  urlsplit_scheme (path lo) = inr scheme ->
  Py.lower scheme = "file" ->
  place lo =
  if Py.startswith (Py.slice_from 4 (path lo)) ":////"
  then inl (RuntimeError "Invalid file uri scheme")
  else inr (ToLocal (LibObj (lib_type lo) (Py.slice_from 5 (path lo)))).
Proof.
  intros Hjar Hscheme Hfile. unfold place. rewrite Hscheme, Hjar, Hfile.
  destruct scheme; [discriminate|]. reflexivity.
Qed.

(** C2, as the code has it.  A reference of kind ["jar"] whose path has
    the scheme [file], in any letter case, and is not the four-slash
    variant is placed in the local list with the first five characters
    of its path removed: alone it is classified as that one local
    reference, and within a list it follows the local references of what
    precedes it. *)
Theorem C2_file_reference_is_local_without_five_characters lo scheme :
  lib_type lo = "jar" ->
  urlsplit_scheme (path lo) = inr scheme ->
  Py.lower scheme = "file" ->
  Py.startswith (Py.slice_from 4 (path lo)) ":////" = false ->
  _partition_libraries_and_extract_local_paths [lo]
  = inr ([LibObj "jar" (Py.slice_from 5 (path lo))], [])
  /\ forall pre post l r,
      _partition_libraries_and_extract_local_paths (pre ++ lo :: post) = inr (l, r) ->
      exists l1 r1 l2 r2,
        _partition_libraries_and_extract_local_paths pre = inr (l1, r1)
        /\ l = l1 ++ LibObj "jar" (Py.slice_from 5 (path lo)) :: l2
        /\ r = r1 ++ r2.
Proof.
  intros Hjar Hscheme Hfile Hok.
  pose proof (place_file lo scheme Hjar Hscheme Hfile) as Hplace.
  rewrite Hok, Hjar in Hplace.
  split.
  - unfold _partition_libraries_and_extract_local_paths. simpl.
    rewrite Hplace. reflexivity.
  - intros pre post l r. unfold _partition_libraries_and_extract_local_paths.
    rewrite partition_loop_app.
    destruct (partition_loop [] [] pre) as [e|[l1 r1]]; [discriminate|].
    simpl. rewrite Hplace. intros Hrec.
    apply partition_loop_filter in Hrec as [-> ->].
    eexists l1, r1, _, _. split; [reflexivity|].
    rewrite <- app_assoc. split; reflexivity.
Qed.

(** C3, as the code has it.  When classification succeeds, the remote
    list is the input references that are not local, unchanged and in
    their order; the local list is the local ones in their order, a bare
    path unchanged and a [file] path without its first five characters;
    the two lists together have one entry per input reference. *)
Theorem C3_classification_partitions_in_order libs l r :
  _partition_libraries_and_extract_local_paths libs = inr (l, r) ->
  l = map local_form (List.filter is_local libs)
  /\ r = List.filter (fun lo => negb (is_local lo)) libs
  /\ (length l + length r = length libs)%nat.
Proof.
  intros Hc. apply partition_loop_filter in Hc as [-> ->]. simpl.
  split; [reflexivity|]. split; [reflexivity|].
  rewrite length_map. clear. induction libs as [|lo libs IH]; simpl; [reflexivity|].
  destruct (is_local lo); simpl; lia.
Qed.

(** C7.  A reference of kind ["jar"] with the scheme [file] whose path
    from index 4 on starts with [":////"] makes classification fail: no
    partition is returned for a list that holds it, and the failure is
    the error "Invalid file uri scheme" whenever the references before
    it are classified without error. *)
Theorem C7_four_slash_file_uri_is_rejected lo scheme pre post :
  lib_type lo = "jar" ->
  urlsplit_scheme (path lo) = inr scheme ->
  Py.lower scheme = "file" ->
  Py.startswith (Py.slice_from 4 (path lo)) ":////" = true ->
  (exists e, _partition_libraries_and_extract_local_paths (pre ++ lo :: post) = inl e)
  /\ (forall l r,
        _partition_libraries_and_extract_local_paths pre = inr (l, r) ->
        _partition_libraries_and_extract_local_paths (pre ++ lo :: post)
        = inl (RuntimeError "Invalid file uri scheme")).
Proof.
  intros Hjar Hscheme Hfile Hbad.
  pose proof (place_file lo scheme Hjar Hscheme Hfile) as Hplace.
  rewrite Hbad in Hplace.
  unfold _partition_libraries_and_extract_local_paths.
  rewrite partition_loop_app.
  destruct (partition_loop [] [] pre) as [e|[l1 r1]].
  - split; [exists e; reflexivity|]. intros l r [=].
  - simpl. rewrite Hplace. split; [eexists; reflexivity|]. intros; reflexivity.
Qed.

End Classifier.

Lemma C2_file_reference_witness :
  _partition_libraries_and_extract_local_paths (C := Sim.plain_env)
    [LibObj "jar" "file:///tmp/a.jar"]
  = inr ([LibObj "jar" "///tmp/a.jar"], []).
Proof.
  exact (proj1 (C2_file_reference_is_local_without_five_characters
                  (C := Sim.plain_env) (LibObj "jar" "file:///tmp/a.jar") "file"
                  eq_refl eq_refl eq_refl eq_refl)).
Defined.

(** C2 as the specification words it does not hold: the local path kept for
    [file:///tmp/a.jar] is [///tmp/a.jar], not [/tmp/a.jar]. *)
Lemma C2_file_prefix_counterexample :
  _partition_libraries_and_extract_local_paths (C := Sim.plain_env)
    [LibObj "jar" "file:///tmp/a.jar"]
  = inr ([LibObj "jar" "///tmp/a.jar"], [])
  /\ _partition_libraries_and_extract_local_paths (C := Sim.plain_env)
       [LibObj "jar" "file:///tmp/a.jar"]
     <> inr ([LibObj "jar" "/tmp/a.jar"], []).
Proof.
  split; [reflexivity|]. vm_compute. discriminate.
Qed.

Lemma C3_classification_witness :
  let libs := [LibObj "jar" "/opt/a.jar"; LibObj "whl" "/opt/b.whl";
               LibObj "jar" "FILE:/opt/c.jar"; LibObj "jar" "s3://bucket/d.jar"] in
  [LibObj "jar" "/opt/a.jar"; LibObj "jar" "/opt/c.jar"]
  = map (local_form (C := Sim.plain_env)) (List.filter (is_local (C := Sim.plain_env)) libs)
  /\ [LibObj "whl" "/opt/b.whl"; LibObj "jar" "s3://bucket/d.jar"]
     = List.filter (fun lo => negb (is_local (C := Sim.plain_env) lo)) libs
  /\ (2 + 2 = length libs)%nat.
Proof.
  intros libs.
  apply (C3_classification_partitions_in_order (C := Sim.plain_env) libs
           [LibObj "jar" "/opt/a.jar"; LibObj "jar" "/opt/c.jar"]
           [LibObj "whl" "/opt/b.whl"; LibObj "jar" "s3://bucket/d.jar"]).
  reflexivity.
Defined.

(** C3 as the specification words it does not hold: the input reference
    [file:/tmp/a.jar] is in neither output list, the local list holds the
    reference [/tmp/a.jar] in its place. *)
Lemma C3_input_reference_counterexample :
  let libs := [LibObj "jar" "file:/tmp/a.jar"] in
  exists l r,
    _partition_libraries_and_extract_local_paths (C := Sim.plain_env) libs = inr (l, r)
    /\ ~ (forall lo, In lo libs -> (In lo l /\ ~ In lo r) \/ (~ In lo l /\ In lo r)).
Proof.
  exists [LibObj "jar" "/tmp/a.jar"], []. split; [reflexivity|].
  intros Hall. destruct (Hall (LibObj "jar" "file:/tmp/a.jar")) as [[Hin _]|[_ Hin]].
  - left. reflexivity.
  - destruct Hin as [Heq|[]]. discriminate Heq.
  - destruct Hin.
Qed.

Lemma C7_four_slash_witness :
  (exists e,
      _partition_libraries_and_extract_local_paths (C := Sim.plain_env)
        ([LibObj "jar" "/opt/a.jar"] ++ LibObj "jar" "file:////tmp/b.jar"
           :: [LibObj "whl" "/opt/c.whl"]) = inl e)
  /\ (forall l r,
        _partition_libraries_and_extract_local_paths (C := Sim.plain_env)
          [LibObj "jar" "/opt/a.jar"] = inr (l, r) ->
        _partition_libraries_and_extract_local_paths (C := Sim.plain_env)
          ([LibObj "jar" "/opt/a.jar"] ++ LibObj "jar" "file:////tmp/b.jar"
             :: [LibObj "whl" "/opt/c.whl"])
        = inl (RuntimeError "Invalid file uri scheme")).
Proof.
  exact (C7_four_slash_file_uri_is_rejected
           (C := Sim.plain_env) (LibObj "jar" "file:////tmp/b.jar") "file"
           [LibObj "jar" "/opt/a.jar"] [LibObj "whl" "/opt/c.whl"]
           eq_refl eq_refl eq_refl eq_refl).
Defined.

(** ** The conversions of [LibraryObject] *)

Lemma single_entry (library : Library) :
  length library = 1%nat -> entries library = [library].
Proof.
  destruct library as [|[k v] [|? ?]]; try discriminate. intros _. reflexivity.
Qed.

Lemma convert_round_trip_entries (libraries : list Library) :
  convert_to_libraries (convert_from_libraries libraries) = concat (map entries libraries).
Proof.
  unfold convert_to_libraries, convert_from_libraries, entries.
  rewrite concat_map, !map_map. f_equal. apply map_ext. intros library.
  rewrite map_map. reflexivity.
Qed.

(** C10.  Converting a list of libraries to library objects and back gives
    one single-key mapping per entry of every library, the libraries in
    the order of the list and the entries of a library in the order of its
    items; there is one library object per entry; and on single-key
    mappings the round trip is the identity. *)
Theorem C10_conversion_round_trip (libraries : list Library) :
  convert_to_libraries (convert_from_libraries libraries) = concat (map entries libraries)
  /\ length (convert_from_libraries libraries) = sum_list (map length libraries)
  /\ (Forall (fun library : Library => length library = 1%nat) libraries ->
      convert_to_libraries (convert_from_libraries libraries) = libraries).
Proof.
  split; [apply convert_round_trip_entries|]. split.
  - unfold convert_from_libraries.
    induction libraries as [|library libraries IH]; simpl; [reflexivity|].
    rewrite length_app, length_map, IH. reflexivity.
  - intros Hsingle. rewrite convert_round_trip_entries.
    induction Hsingle as [|library libraries Hsize _ IH]; simpl; [reflexivity|].
    rewrite (single_entry _ Hsize), IH. reflexivity.
Qed.

Lemma C10_conversion_witness :
  convert_to_libraries
    (convert_from_libraries [ [("jar", "/opt/a.jar")]; [("whl", "s3://b/c.whl")] ])
  = [ [("jar", "/opt/a.jar")]; [("whl", "s3://b/c.whl")] ].
Proof.
  apply (C10_conversion_round_trip
           [ [("jar", "/opt/a.jar")]; [("whl", "s3://b/c.whl")] ]).
  repeat constructor.
Defined.

(** ** Credentials *)

Section CredentialsShape.

Context `{C : Collaborators}.

Lemma shapes_differ (c : Credentials) : token_shape c -> user_password_shape c -> False.
Proof.
  unfold token_shape, user_password_shape. intros Ht Hu.
  assert (Hin : "user" ∈ dom c) by (rewrite Hu; set_solver).
  rewrite Ht in Hin. apply elem_of_singleton in Hin. discriminate Hin.
Qed.

Lemma credentials_unfold :
  _get_credentials_for_request =
  match resolved_config with
  | None => inl (InvalidConfigurationError get_profile_from_context)
  | Some config =>
      if negb (is_valid config)
      then inl (InvalidConfigurationError get_profile_from_context)
      else if is_valid_with_token config
      then inr {[ "token" := token config ]}
      else inr (<[ "user" := username config ]> {[ "password" := password config ]})
  end.
Proof. reflexivity. Qed.

(** C9.  For a valid resolved configuration the credentials are returned
    and have exactly one of the two shapes, [{token}] holding the token
    or [{user, password}] holding the user name and the password; when
    no configuration is resolved or the resolved one is not valid, the
    call fails with [InvalidConfigurationError] for the profile. *)
Theorem C9_credentials_have_exactly_one_shape :
  (forall config,
      resolved_config = Some config ->
      is_valid config = true ->
      exists credentials,
        _get_credentials_for_request = inr credentials
        /\ ((token_shape credentials /\ ~ user_password_shape credentials
             /\ credentials !! "token" = Some (token config))
            \/ (user_password_shape credentials /\ ~ token_shape credentials
                /\ credentials !! "user" = Some (username config)
                /\ credentials !! "password" = Some (password config))))
  /\ (resolved_config = None
      \/ (exists config, resolved_config = Some config /\ is_valid config = false) ->
      _get_credentials_for_request
      = inl (InvalidConfigurationError get_profile_from_context)).
Proof.
  rewrite credentials_unfold. split.
  - intros config -> Hvalid. rewrite Hvalid. simpl.
    destruct (is_valid_with_token config); eexists; (split; [reflexivity|]).
    + assert (Hshape : token_shape ({[ "token" := token config ]} : Credentials))
        by apply dom_singleton_L.
      left. split; [exact Hshape|]. split.
      * intros Hu. exact (shapes_differ _ Hshape Hu).
      * apply lookup_singleton_eq.
    + assert (Hshape : user_password_shape
                         (<[ "user" := username config ]>
                            ({[ "password" := password config ]} : Credentials))).
      { unfold user_password_shape. rewrite dom_insert_L, dom_singleton_L. reflexivity. }
      right. split; [exact Hshape|]. split.
      * intros Ht. exact (shapes_differ _ Ht Hshape).
      * split; [apply lookup_insert_eq|].
        rewrite lookup_insert_ne by discriminate. apply lookup_singleton_eq.
  - intros [->|[config [-> Hinvalid]]]; [reflexivity|].
    rewrite Hinvalid. reflexivity.
Qed.

End CredentialsShape.

Lemma C9_credentials_witness :
  exists credentials,
    _get_credentials_for_request (C := Sim.token_env) = inr credentials
    /\ ((token_shape credentials /\ ~ user_password_shape credentials
         /\ credentials !! "token" = Some (Some "dapi123"))
        \/ (user_password_shape credentials /\ ~ token_shape credentials
            /\ credentials !! "user" = Some None
            /\ credentials !! "password" = Some None)).
Proof.
  exact (proj1 (C9_credentials_have_exactly_one_shape (C := Sim.token_env))
               Sim.token_config eq_refl eq_refl).
Defined.

(** ** The hashed path *)

Section PathExtension.

Implicit Types (p s : string) (c : ascii).

Lemma rfind_from_last_index c s : forall i last,
  Py.rfind_from i last c s =
  match last_index c s with
  | Some k => i + Z.of_nat k
  | None => last
  end.
Proof.
  induction s as [|a s IH]; intros i last; simpl; [reflexivity|].
  rewrite IH. destruct (last_index c s) as [k|]; [lia|].
  destruct (Ascii.eqb a c); lia.
Qed.

Lemma rfind_last_index c s :
  Py.rfind c s = match last_index c s with Some k => Z.of_nat k | None => -1 end.
Proof.
  unfold Py.rfind. rewrite rfind_from_last_index.
  destruct (last_index c s); reflexivity.
Qed.

Lemma last_index_lt c s k : last_index c s = Some k -> (k < String.length s)%nat.
Proof.
  revert k. induction s as [|a s IH]; intros k; simpl; [discriminate|].
  destruct (last_index c s) as [j|].
  - intros [= <-]. specialize (IH j eq_refl). lia.
  - destruct (Ascii.eqb a c); [|discriminate]. intros [= <-]. lia.
Qed.

Lemma contains_last_index c s :
  Py.contains c s = match last_index c s with Some _ => true | None => false end.
Proof.
  induction s as [|a s IH]; simpl; [reflexivity|].
  rewrite IH. destruct (last_index c s); [apply orb_true_r|].
  destruct (Ascii.eqb a c); reflexivity.
Qed.

Lemma last_index_slice_from c : forall n s,
  last_index c (Py.slice_from n s) =
  match last_index c s with
  | Some k => if (n <=? k)%nat then Some (k - n)%nat else None
  | None => None
  end.
Proof.
  induction n as [|n IH]; intros s.
  - simpl. destruct (last_index c s) as [k|]; [|reflexivity].
    rewrite Nat.sub_0_r. reflexivity.
  - destruct s as [|a s]; [reflexivity|]. simpl Py.slice_from. rewrite IH.
    simpl last_index. destruct (last_index c s) as [k|]; [reflexivity|].
    destruct (Ascii.eqb a c); reflexivity.
Qed.

Lemma slice_from_slice_from : forall n m s,
  Py.slice_from m (Py.slice_from n s) = Py.slice_from (n + m) s.
Proof.
  induction n as [|n IH]; intros m s; [reflexivity|].
  destruct s as [|a s]; simpl.
  - destruct m; reflexivity.
  - apply IH.
Qed.

Lemma final_segment_last_index p :
  final_segment p =
  match last_index "/" p with
  | Some k => Py.slice_from (S k) p
  | None => p
  end.
Proof.
  induction p as [|a p IH]; [reflexivity|].
  cbn [final_segment]. rewrite contains_last_index. cbn [last_index].
  destruct (last_index "/" p) as [k|].
  - rewrite IH. reflexivity.
  - destruct (Ascii.eqb a "/"); [|reflexivity].
    rewrite IH. reflexivity.
Qed.

Lemma split_last_dot_last_index s :
  split_last_dot s =
  match last_index "." s with
  | Some k => Some (Py.slice_to k s, Py.slice_from k s)
  | None => None
  end.
Proof.
  induction s as [|a s IH]; [reflexivity|].
  cbn [split_last_dot last_index]. rewrite IH.
  destruct (last_index "." s) as [k|]; [reflexivity|].
  destruct (Ascii.eqb a "."); reflexivity.
Qed.

Lemma has_root_all_dots : forall n p i,
  (i + n <= String.length p)%nat ->
  OsPath.has_root p i n
  = negb (Py.all_chars (fun c => Ascii.eqb c ".") (Py.slice_to n (Py.slice_from i p))).
Proof.
  induction n as [|n IH]; intros p i Hlen; [reflexivity|].
  cbn [OsPath.has_root]. rewrite IH by lia.
  assert (Hcut : exists a, Py.slice_from i p = String a (Py.slice_from (S i) p)).
  { clear IH. revert p Hlen. induction i as [|i IHi]; intros p Hlen.
    - destruct p as [|a p]; [simpl in Hlen; lia|]. exists a. reflexivity.
    - destruct p as [|a p]; [simpl in Hlen; lia|].
      simpl in Hlen. destruct (IHi p) as [b Hb]; [lia|]. exists b. exact Hb. }
  destruct Hcut as [a ->]. cbn [Py.slice_to Py.all_chars String.eqb].
  destruct (Ascii.eqb a "."); reflexivity.
Qed.

(** The extension [os.path.splitext] returns is [extension]. *)
Lemma splitext_extension p : snd (OsPath.splitext p) = extension p.
Proof.
  unfold OsPath.splitext, extension.
  rewrite !rfind_last_index, final_segment_last_index, split_last_dot_last_index.
  destruct (last_index "." p) as [kd|] eqn:Hdot.
  - pose proof (last_index_lt _ _ _ Hdot) as Hkd.
    destruct (last_index "/" p) as [ks|] eqn:Hsep.
    + rewrite last_index_slice_from, Hdot.
      destruct (Z.of_nat ks <? Z.of_nat kd) eqn:Hlt.
      * apply Z.ltb_lt in Hlt.
        replace (S ks <=? kd)%nat with true by (symmetry; apply Nat.leb_le; lia).
        replace (Z.to_nat (Z.of_nat ks + 1)) with (S ks) by lia.
        replace (Z.to_nat (Z.of_nat kd - (Z.of_nat ks + 1))) with (kd - S ks)%nat by lia.
        rewrite has_root_all_dots by lia. cbn [andb].
        rewrite slice_from_slice_from, Nat2Z.id.
        replace (S ks + (kd - S ks))%nat with kd by lia.
        destruct (Py.all_chars _ _); reflexivity.
      * apply Z.ltb_ge in Hlt.
        replace (S ks <=? kd)%nat with false by (symmetry; apply Nat.leb_gt; lia).
        reflexivity.
    + replace (-1 <? Z.of_nat kd) with true by (symmetry; apply Z.ltb_lt; lia).
      rewrite Hdot.
      replace (Z.to_nat (-1 + 1)) with O by lia.
      replace (Z.to_nat (Z.of_nat kd - (-1 + 1))) with kd by lia.
      rewrite has_root_all_dots by (simpl; lia). cbn [andb Py.slice_from].
      rewrite Nat2Z.id.
      destruct (Py.all_chars _ _); reflexivity.
  - destruct (last_index "/" p) as [ks|] eqn:Hsep.
    + rewrite last_index_slice_from, Hdot.
      replace (Z.of_nat ks <? -1) with false by (symmetry; apply Z.ltb_ge; lia).
      reflexivity.
    + rewrite Hdot. reflexivity.
Qed.

End PathExtension.

Section ContentHash.

Lemma BUFFER_SIZE_nonzero : BUFFER_SIZE <> O.
Proof.
  unfold BUFFER_SIZE. intros H. apply Nat.eq_mul_0 in H as [H|H]; discriminate H.
Qed.

Lemma firstn_nil_inv {A} (n : nat) (l : list A) : n <> O -> firstn n l = [] -> l = [].
Proof. destruct n, l; simpl; congruence. Qed.

(** The reading loop feeds the whole content to the hash object. *)
Lemma read_loop_feeds_all hash_buffer f :
  read_loop hash_buffer f = Hashlib.update hash_buffer f.
Proof.
  funelim (read_loop hash_buffer f).
  - assert (Hnil : f = [])
      by (eapply firstn_nil_inv; [apply BUFFER_SIZE_nonzero|eassumption]).
    clear - Hnil. subst f.
    destruct hash_buffer as [fed]. unfold Hashlib.update. simpl.
    rewrite app_nil_r. reflexivity.
  - match goal with IH : read_loop _ _ = Hashlib.update _ _ |- _ => rewrite IH end.
    unfold Hashlib.update. simpl. f_equal. rewrite <- app_assoc. f_equal.
    match goal with H : firstn _ _ = _ :: _ |- _ => rewrite <- H end.
    apply firstn_skipn.
Qed.

Lemma hex_digit_lower x : 0 <= x < 16 -> is_lower_hex (Hashlib.hex_digit x) = true.
Proof.
  intros Hx.
  assert (Hcases : x = 0 \/ x = 1 \/ x = 2 \/ x = 3 \/ x = 4 \/ x = 5 \/ x = 6 \/ x = 7
                   \/ x = 8 \/ x = 9 \/ x = 10 \/ x = 11 \/ x = 12 \/ x = 13 \/ x = 14
                   \/ x = 15) by lia.
  repeat (destruct Hcases as [->|Hcases]; [reflexivity|]). subst x. reflexivity.
Qed.

Lemma hex_lower k x rest :
  Py.all_chars is_lower_hex rest = true ->
  Py.all_chars is_lower_hex (Hashlib.hex k x rest) = true.
Proof.
  intros Hrest. induction k as [|k IH]; [exact Hrest|].
  cbn [Hashlib.hex Py.all_chars]. rewrite IH, andb_true_r.
  apply hex_digit_lower. apply Z.mod_pos_bound. lia.
Qed.

Lemma hex_length k x rest :
  String.length (Hashlib.hex k x rest) = (k + String.length rest)%nat.
Proof. induction k as [|k IH]; simpl; [reflexivity|]. rewrite IH. reflexivity. Qed.

Lemma hex_of_shape h :
  String.length (Hashlib.hex_of h) = 40%nat
  /\ Py.all_chars is_lower_hex (Hashlib.hex_of h) = true.
Proof.
  unfold Hashlib.hex_of. split.
  - rewrite !hex_length. reflexivity.
  - repeat apply hex_lower. reflexivity.
Qed.

Example sha1_of_abc :
  Hashlib.hexdigest (Hashlib.update Hashlib.sha1 [x61; x62; x63])
  = "a9993e364706816aba3e25717850c26c9cd0d89d".
Proof. vm_compute. reflexivity. Qed.

Example sha1_of_two_blocks :
  Hashlib.hexdigest (Hashlib.update Hashlib.sha1 (repeat x61 100))
  = "7f9000257a4918d7072655ea468540cdcbd42e0c".
Proof. vm_compute. reflexivity. Qed.

Context `{C : Collaborators}.

(** C4, as the code has it.  For a readable local file the derived path
    is the namespace root, the SHA-1 digest of the bytes of the file as
    forty lower-case hexadecimal digits, and the extension of
    [os.path.splitext]: the text from the last ['.'] of the final path
    segment when a character other than ['.'] precedes it there, empty
    otherwise.  The digest depends on the bytes only, and that of the
    empty file is the known constant. *)
Theorem C4_hashed_path_of_readable_file path f :
  open_rb path = inr f ->
  _get_hashed_path path
  = inr (base_pipelines_dir +:+ Hashlib.hex_of (Hashlib.digest f) +:+ extension path)
  /\ String.length (Hashlib.hex_of (Hashlib.digest f)) = 40%nat
  /\ Py.all_chars is_lower_hex (Hashlib.hex_of (Hashlib.digest f)) = true
  /\ Hashlib.hex_of (Hashlib.digest []) = "da39a3ee5e6b4b0d3255bfef95601890afd80709".
Proof.
  intros Hopen. unfold _get_hashed_path. rewrite Hopen.
  rewrite read_loop_feeds_all, splitext_extension.
  split; [reflexivity|]. split; [apply hex_of_shape|]. split; [apply hex_of_shape|].
  vm_compute. reflexivity.
Qed.

End ContentHash.

Lemma C4_hashed_path_witness :
  _get_hashed_path (C := Sim.files_env) "/opt/libs/app.tar.jar"
  = inr "dbfs:/pipelines/code/a9993e364706816aba3e25717850c26c9cd0d89d.jar".
Proof.
  exact (proj1 (C4_hashed_path_of_readable_file
                  (C := Sim.files_env) "/opt/libs/app.tar.jar" [x61; x62; x63] eq_refl)).
Defined.

(** C4 as the specification words it does not hold: the final segment of
    [/opt/libs/.jar] has a last ['.'], from which the text is [.jar], and
    the derived path carries no extension. *)
Lemma C4_leading_dot_counterexample :
  open_rb (Collaborators := Sim.files_env) "/opt/libs/.jar" = inr []
  /\ spec_extension "/opt/libs/.jar" = ".jar"
  /\ _get_hashed_path (C := Sim.files_env) "/opt/libs/.jar"
     = inr "dbfs:/pipelines/code/da39a3ee5e6b4b0d3255bfef95601890afd80709"
  /\ _get_hashed_path (C := Sim.files_env) "/opt/libs/.jar"
     <> inr (base_pipelines_dir +:+ Hashlib.hex_of (Hashlib.digest [])
               +:+ spec_extension "/opt/libs/.jar").
Proof.
  split; [reflexivity|]. split; [reflexivity|]. split; [vm_compute; reflexivity|].
  vm_compute. discriminate.
Qed.

(** ** Planning, uploading and submitting *)

Section Deploy.

Context `{C : Collaborators}.

Implicit Types (local rest remote : list (LibraryObject string))
         (plan : list (LibraryObject string * LibraryObject DbfsPath))
         (w : World) (d : Dbfs).

Ltac run_monad :=
  unfold bind, lift, ret, raise, call_file_exists, call_put_file, call_perform_query,
    logged; cbn [dbfs calls fst snd].

(** *** Derived remote references *)

Lemma hashed_lib_objects_pairwise local : forall remote,
  hashed_lib_objects local = inr remote ->
  Forall2 (fun llo rlo =>
             lib_type rlo = lib_type llo /\ _get_hashed_path (path llo) = inr (path rlo))
          local remote.
Proof.
  induction local as [|llo local IH]; intros remote; cbn [hashed_lib_objects].
  - intros [= <-]. constructor.
  - destruct (_get_hashed_path (path llo)) as [e|p] eqn:Hp; [discriminate|].
    destruct (hashed_lib_objects local) as [e|remote']; [discriminate|].
    intros [= <-]. constructor; [split; [reflexivity|exact Hp]|]. apply IH. reflexivity.
Qed.

Lemma hashed_path_under_base p q :
  _get_hashed_path p = inr q -> exists s, q = base_pipelines_dir +:+ s.
Proof.
  unfold _get_hashed_path. destruct (open_rb p); [discriminate|].
  intros [= <-]. eexists. reflexivity.
Qed.

Lemma hashed_lib_objects_valid local remote :
  (forall s, DbfsPath_validate (base_pipelines_dir +:+ s) = None) ->
  hashed_lib_objects local = inr remote ->
  Forall (fun rlo => DbfsPath_validate (path rlo) = None) remote.
Proof.
  intros Hvalid Hh. apply hashed_lib_objects_pairwise in Hh.
  induction Hh as [|llo rlo local remote [_ Hp] _ IH]; constructor; [|exact IH].
  destruct (hashed_path_under_base _ _ Hp) as [s ->]. apply Hvalid.
Qed.

(** *** The planner *)

Lemma planner_run local : forall remote d log,
  length remote = length local ->
  Forall (fun rlo => DbfsPath_validate (path rlo) = None) remote ->
  _get_files_to_upload local remote (MkWorld d log)
  = (inr (plan_of d local remote), MkWorld d (log ++ queries_of remote)).
Proof.
  induction local as [|llo local IH]; intros remote d log Hlen Hvalid.
  - destruct remote; [|discriminate Hlen].
    cbn [_get_files_to_upload]. run_monad. unfold queries_of. simpl.
    rewrite app_nil_r. reflexivity.
  - destruct remote as [|rlo remote]; [discriminate Hlen|].
    inversion Hvalid as [|? ? Hr Hrest]; subst.
    cbn [_get_files_to_upload]. unfold new_DbfsPath. rewrite Hr. run_monad.
    rewrite IH by (try assumption; simpl in Hlen; lia).
    unfold plan_of, queries_of, transformed.
    cbn [map combine List.filter path snd]. rewrite <- app_assoc.
    destruct (file_exists d {| absolute_path := path rlo |}); reflexivity.
Qed.

Lemma planner_effects local : forall remote w r w',
  _get_files_to_upload local remote w = (r, w') ->
  dbfs w' = dbfs w
  /\ (exists qs, calls w' = calls w ++ qs /\ Forall is_query qs)
  /\ (forall plan, r = inr plan ->
                   Forall (fun pr => file_exists (dbfs w) (path (snd pr)) = false) plan).
Proof.
  induction local as [|llo local IH]; intros remote w r w'.
  - cbn [_get_files_to_upload]. run_monad. intros [= <- <-].
    split; [reflexivity|]. split.
    + exists []. rewrite app_nil_r. split; [reflexivity|constructor].
    + intros plan [= <-]. constructor.
  - destruct remote as [|rlo remote].
    { cbn [_get_files_to_upload]. run_monad. intros [= <- <-].
      split; [reflexivity|]. split.
      + exists []. rewrite app_nil_r. split; [reflexivity|constructor].
      + intros plan [= <-]. constructor. }
    cbn [_get_files_to_upload]. unfold new_DbfsPath.
    destruct (DbfsPath_validate (path rlo)) as [e|].
    { run_monad. intros [= <- <-]. split; [reflexivity|]. split.
      + exists []. rewrite app_nil_r. split; [reflexivity|constructor].
      + intros plan [=]. }
    run_monad.
    destruct (_get_files_to_upload local remote _) as [r1 w1] eqn:Hrec.
    apply IH in Hrec as (Hd & (qs & Hcalls & Hqs) & Hplan).
    cbn [dbfs calls] in Hd, Hcalls, Hplan.
    destruct r1 as [e|files]; intros [= <- <-].
    + split; [exact Hd|]. split.
      * eexists (_ :: qs). rewrite Hcalls, <- app_assoc. split; [reflexivity|].
        constructor; [exact I|exact Hqs].
      * intros plan [=].
    + split; [exact Hd|]. split.
      * eexists (_ :: qs). rewrite Hcalls, <- app_assoc. split; [reflexivity|].
        constructor; [exact I|exact Hqs].
      * intros plan [= <-]. specialize (Hplan files eq_refl).
        destruct (file_exists (dbfs w) _) eqn:Hex; [exact Hplan|].
        constructor; [exact Hex|exact Hplan].
Qed.

(** *** The upload loop *)

Lemma upload_loop_calls plan : forall w r w',
  upload_loop plan w = (r, w') ->
  exists k, calls w' = calls w ++ map put_call (firstn k plan).
Proof.
  induction plan as [|[llo rlo] plan IH]; intros w r w'; cbn [upload_loop].
  - run_monad. intros [= <- <-]. exists O. simpl. rewrite app_nil_r. reflexivity.
  - run_monad.
    destruct (put_file (dbfs w) (path llo) (path rlo) false) as [[e|[]] d'].
    + intros [= <- <-]. exists 1%nat. reflexivity.
    + intros Hrec. apply IH in Hrec as [k Hk]. exists (S k).
      rewrite Hk. cbn [calls firstn map]. rewrite <- app_assoc. reflexivity.
Qed.

Lemma upload_loop_succeeds plan : forall d log d1,
  store_after_uploads d plan = Some d1 ->
  upload_loop plan (MkWorld d log) = (inr tt, MkWorld d1 (log ++ map put_call plan)).
Proof.
  induction plan as [|[llo rlo] plan IH]; intros d log d1;
    cbn [upload_loop store_after_uploads fst snd].
  - intros [= <-]. run_monad. simpl. rewrite app_nil_r. reflexivity.
  - run_monad.
    destruct (put_file d (path llo) (path rlo) false) as [[e|[]] d']; [discriminate|].
    intros Hrest. rewrite (IH _ _ _ Hrest). cbn [map]. rewrite <- app_assoc. reflexivity.
Qed.

Lemma upload_loop_success_inv plan : forall w w',
  upload_loop plan w = (inr tt, w') ->
  store_after_uploads (dbfs w) plan = Some (dbfs w')
  /\ calls w' = calls w ++ map put_call plan.
Proof.
  induction plan as [|[llo rlo] plan IH]; intros w w';
    cbn [upload_loop store_after_uploads fst snd].
  - run_monad. intros [= <-]. simpl. rewrite app_nil_r. split; reflexivity.
  - run_monad.
    destruct (put_file (dbfs w) (path llo) (path rlo) false) as [[e|[]] d'];
      [discriminate|].
    intros Hrec. apply IH in Hrec as [Hs Hc]. cbn [dbfs calls] in Hs, Hc.
    split; [exact Hs|]. rewrite Hc. cbn [map]. rewrite <- app_assoc. reflexivity.
Qed.

Lemma upload_loop_aborts pre : forall llo rlo post d log d1 e d',
  store_after_uploads d pre = Some d1 ->
  put_file d1 (path llo) (path rlo) false = (inl e, d') ->
  upload_loop (pre ++ (llo, rlo) :: post) (MkWorld d log)
  = (inl (RuntimeError ("Error '" +:+ e +:+ "' while uploading " +:+ path llo)),
     MkWorld d' (log ++ map put_call (pre ++ [(llo, rlo)]))).
Proof.
  induction pre as [|[l0 r0] pre IH]; intros llo rlo post d log d1 e d';
    cbn [app upload_loop store_after_uploads fst snd].
  - intros [= <-] Hput. run_monad. rewrite Hput. reflexivity.
  - run_monad.
    destruct (put_file d (path l0) (path r0) false) as [[e0|[]] d0]; [discriminate|].
    intros Hpre Hput. rewrite (IH _ _ _ _ _ _ _ _ Hpre Hput).
    cbn [map]. rewrite <- app_assoc. reflexivity.
Qed.

(** *** The orchestrator *)

Lemma rewrite_and_submit_run spec headers rest remote w :
  submit_outcome spec headers rest remote w =
  match _get_credentials_for_request with
  | inl e => (inl e, w)
  | inr credentials =>
      match spec_id spec with
      | None => (inl (KeyError "id"), w)
      | Some id =>
          (match perform_query "PUT" ("/pipelines/" +:+ id)
                               (submitted_spec spec rest remote credentials) headers with
           | Some e => inl e
           | None => inr tt
           end,
           MkWorld (dbfs w)
                   (calls w ++ [PerformQuery "PUT" ("/pipelines/" +:+ id)
                                             (submitted_spec spec rest remote credentials)
                                             headers]))
      end
  end.
Proof.
  unfold submit_outcome, rewrite_and_submit.
  destruct _get_credentials_for_request as [e|credentials]; [reflexivity|].
  fold (submitted_spec spec rest remote credentials). unfold spec_getitem_id.
  change (spec_id (submitted_spec spec rest remote credentials)) with (spec_id spec).
  destruct (spec_id spec); reflexivity.
Qed.

Lemma run_deploy_chain spec headers d :
  run_deploy spec headers d =
  bind (lift (_partition_libraries_and_extract_local_paths (lib_objects_of spec)))
       (fun parts =>
          bind (lift (hashed_lib_objects (fst parts)))
               (fun remote =>
                  bind (_get_files_to_upload (fst parts) remote)
                       (fun upload_files =>
                          bind (upload_loop upload_files)
                               (fun _ => submit_outcome spec headers (snd parts) remote))))
       (MkWorld d []).
Proof.
  unfold run_deploy, deploy, submit_outcome. fold (lib_objects_of spec). run_monad.
  destruct (_partition_libraries_and_extract_local_paths (lib_objects_of spec))
    as [e|parts]; [reflexivity|].
  destruct (hashed_lib_objects (fst parts)) as [e|remote]; [reflexivity|].
  destruct (_get_files_to_upload (fst parts) remote (MkWorld d []))
    as [[e|upload_files] w1]; [reflexivity|].
  destruct (upload_loop upload_files w1) as [[e|[]] w2]; reflexivity.
Qed.

Lemma run_deploy_staged spec headers d local rest remote :
  (forall s, DbfsPath_validate (base_pipelines_dir +:+ s) = None) ->
  _partition_libraries_and_extract_local_paths (lib_objects_of spec) = inr (local, rest) ->
  hashed_lib_objects local = inr remote ->
  run_deploy spec headers d =
  match upload_loop (plan_of d local remote) (MkWorld d (queries_of remote)) with
  | (inl e, w) => (inl e, w)
  | (inr _, w) => submit_outcome spec headers rest remote w
  end.
Proof.
  intros Hvalid Hparts Hremote. rewrite run_deploy_chain. run_monad. rewrite Hparts. cbn [fst snd]. rewrite Hremote.
  rewrite planner_run.
  - reflexivity.
  - apply hashed_lib_objects_pairwise in Hremote. symmetry.
    eapply Forall2_length. exact Hremote.
  - eapply hashed_lib_objects_valid; eassumption.
Qed.

Lemma run_deploy_inv spec headers d res w :
  run_deploy spec headers d = (res, w) ->
  exists before,
    Forall not_submission before
    /\ (forall src dst o, In (PutFile src dst o) before -> file_exists d dst = false)
    /\ ((exists e, res = inl e /\ calls w = before)
        \/ (exists local rest remote credentials id,
               _partition_libraries_and_extract_local_paths (lib_objects_of spec)
               = inr (local, rest)
               /\ hashed_lib_objects local = inr remote
               /\ _get_credentials_for_request = inr credentials
               /\ spec_id spec = Some id
               /\ calls w =
                  before ++ [PerformQuery "PUT" ("/pipelines/" +:+ id)
                                          (submitted_spec spec rest remote credentials)
                                          headers])).
Proof.
  rewrite run_deploy_chain. run_monad.
  destruct (_partition_libraries_and_extract_local_paths (lib_objects_of spec))
    as [e|[local rest]] eqn:Hparts.
  { intros [= <- <-]. exists []. split; [constructor|]. split; [intros ? ? ? []|].
    left. eexists. split; reflexivity. }
  cbn [fst snd].
  destruct (hashed_lib_objects local) as [e|remote] eqn:Hremote.
  { intros [= <- <-]. exists []. split; [constructor|]. split; [intros ? ? ? []|].
    left. eexists. split; reflexivity. }
  destruct (_get_files_to_upload local remote (MkWorld d [])) as [r1 w1] eqn:Hplan.
  apply planner_effects in Hplan as (Hd1 & (qs & Hc1 & Hqs) & Habsent).
  cbn [dbfs calls app] in Hd1, Hc1, Habsent.
  assert (Hqs_ns : Forall not_submission qs).
  { eapply List.Forall_impl; [|exact Hqs]. intros [] Hq; simpl in *; tauto. }
  assert (Hqs_put : forall src dst o, In (PutFile src dst o) qs -> file_exists d dst = false).
  { intros src dst o Hin. rewrite List.Forall_forall in Hqs. apply Hqs in Hin.
    destruct Hin. }
  destruct r1 as [e|plan].
  { intros [= <- <-]. exists qs. split; [exact Hqs_ns|]. split; [exact Hqs_put|].
    left. eexists. split; [reflexivity|exact Hc1]. }
  specialize (Habsent plan eq_refl).
  destruct (upload_loop plan w1) as [r2 w2] eqn:Hup.
  apply upload_loop_calls in Hup as [k Hc2]. rewrite Hc1 in Hc2.
  set (before := qs ++ map put_call (firstn k plan)) in *.
  assert (Hns : Forall not_submission before).
  { apply Forall_app. split; [exact Hqs_ns|].
    apply List.Forall_forall. intros c Hin. apply in_map_iff in Hin as [pr [<- _]].
    exact I. }
  assert (Hput : forall src dst o, In (PutFile src dst o) before -> file_exists d dst = false).
  { intros src dst o Hin. apply in_app_or in Hin as [Hin|Hin]; [eauto|].
    apply in_map_iff in Hin as [pr [Heq Hin]]. injection Heq as _ <- _.
    rewrite List.Forall_forall in Habsent. apply Habsent.
    rewrite <- (firstn_skipn k plan). apply in_or_app. left. exact Hin. }
  destruct r2 as [e|[]].
  { intros [= <- <-]. exists before. split; [exact Hns|]. split; [exact Hput|].
    left. eexists. split; [reflexivity|exact Hc2]. }
  rewrite rewrite_and_submit_run.
  destruct _get_credentials_for_request as [e|credentials] eqn:Hcred.
  { intros [= <- <-]. exists before. split; [exact Hns|]. split; [exact Hput|].
    left. eexists. split; [reflexivity|exact Hc2]. }
  destruct (spec_id spec) as [id|] eqn:Hid.
  - intros [= <- <-]. exists before. split; [exact Hns|]. split; [exact Hput|].
    right. exists local, rest, remote, credentials, id.
    cbn [calls]. rewrite Hc2. repeat split; try reflexivity; assumption.
  - intros [= <- <-]. exists before. split; [exact Hns|]. split; [exact Hput|].
    left. eexists. split; [reflexivity|exact Hc2].
Qed.

End Deploy.

Section Orchestrator.

Context `{C : Collaborators}.

(** C1.  When a deploy call submits a specification, the library list of
    what is submitted is, in this order, one mapping [{kind: path}] for
    every pass-through remote reference, unchanged, and one mapping
    [{kind: path}] for every local reference, with the kind of the local
    reference and its hashed path: as many entries as there are local and
    pass-through references.  The references are those of the items of the
    library list of the specification.  Nothing is assumed on which remote
    paths the store already holds. *)
Theorem C1_submitted_library_list spec headers d method resource data hdrs :
  In (PerformQuery method resource data hdrs) (calls (snd (run_deploy spec headers d))) ->
  exists local rest remote,
    _partition_libraries_and_extract_local_paths
      (concat (map (map (fun item : string * string => LibObj (fst item) (snd item)))
                   (default [] (spec_libraries spec))))
    = inr (local, rest)
    /\ Forall2 (fun llo rlo =>
                  lib_type rlo = lib_type llo
                  /\ _get_hashed_path (path llo) = inr (path rlo))
               local remote
    /\ spec_libraries data
       = Some (map (fun lo => [(lib_type lo, path lo)]) rest
                 ++ map (fun lo => [(lib_type lo, path lo)]) remote)
    /\ length (map (fun lo : LibraryObject string => [(lib_type lo, path lo)]) rest
                 ++ map (fun lo : LibraryObject string => [(lib_type lo, path lo)]) remote)
       = (length rest + length local)%nat.
Proof.
  destruct (run_deploy spec headers d) as [res w] eqn:Hrun. cbn [snd].
  apply run_deploy_inv in Hrun as (before & Hns & _ & Hcases). intros Hin.
  assert (Hnot : ~ In (PerformQuery method resource data hdrs) before).
  { intros Hb. rewrite List.Forall_forall in Hns. exact (Hns _ Hb). }
  destruct Hcases as [(e & _ & Hc)|(local & rest & remote & credentials & id
                                    & Hparts & Hremote & _ & _ & Hc)];
    rewrite Hc in Hin.
  - contradiction.
  - apply in_app_or in Hin as [Hin|[Heq|[]]]; [contradiction|].
    injection Heq as _ _ <- _.
    exists local, rest, remote. split; [exact Hparts|].
    pose proof (hashed_lib_objects_pairwise _ _ Hremote) as Hpairs.
    split; [exact Hpairs|]. split.
    + unfold submitted_spec, set_credentials, set_libraries, convert_to_libraries.
      cbn [spec_libraries]. rewrite map_app. reflexivity.
    + rewrite length_app, !length_map. apply Forall2_length in Hpairs. lia.
Qed.

(** C5.  For local references and their derived remote references, the
    planner asks the store once per pair, in order, changes nothing, and
    returns the pairs whose remote path the store reports absent, in
    order; without local references it returns the empty plan and asks
    nothing; and a deploy call uploads only to remote paths that the
    store reported absent. *)
Theorem C5_plan_is_the_absent_pairs :
  (forall local remote d log,
      (forall s, DbfsPath_validate (base_pipelines_dir +:+ s) = None) ->
      hashed_lib_objects local = inr remote ->
      _get_files_to_upload local remote (MkWorld d log)
      = (inr (plan_of d local remote), MkWorld d (log ++ queries_of remote)))
  /\ (forall remote w, _get_files_to_upload [] remote w = (inr [], w))
  /\ (forall spec headers d src dst o,
         In (PutFile src dst o) (calls (snd (run_deploy spec headers d))) ->
         file_exists d dst = false).
Proof.
  split; [|split].
  - intros local remote d log Hvalid Hremote. apply planner_run.
    + apply hashed_lib_objects_pairwise in Hremote. symmetry.
      eapply Forall2_length. exact Hremote.
    + eapply hashed_lib_objects_valid; eassumption.
  - intros remote w. reflexivity.
  - intros spec headers d src dst o.
    destruct (run_deploy spec headers d) as [res w] eqn:Hrun. cbn [snd].
    apply run_deploy_inv in Hrun as (before & _ & Hput & Hcases). intros Hin.
    destruct Hcases as [(e & _ & Hc)|(local & rest & remote & credentials & id
                                      & _ & _ & _ & _ & Hc)];
      rewrite Hc in Hin.
    + eapply Hput. exact Hin.
    + apply in_app_or in Hin as [Hin|[Heq|[]]]; [|discriminate Heq].
      eapply Hput. exact Hin.
Qed.

(** C6.  When the upload of a pair of the plan fails after the uploads of
    the pairs before it succeeded, the deploy call raises the error that
    names the local path of the failing pair and carries the text of the
    cause; the calls it made are the existence queries, the uploads of the
    pairs before the failing one and the failing upload, so that no later
    pair is uploaded and nothing is submitted; the store is left as the
    failing upload left the store the earlier uploads had produced. *)
Theorem C6_upload_failure_aborts spec headers d local rest remote pre llo rlo post d1 e d' :
  (forall s, DbfsPath_validate (base_pipelines_dir +:+ s) = None) ->
  _partition_libraries_and_extract_local_paths (lib_objects_of spec) = inr (local, rest) ->
  hashed_lib_objects local = inr remote ->
  plan_of d local remote = pre ++ (llo, rlo) :: post ->
  store_after_uploads d pre = Some d1 ->
  put_file d1 (path llo) (path rlo) false = (inl e, d') ->
  run_deploy spec headers d
  = (inl (RuntimeError ("Error '" +:+ e +:+ "' while uploading " +:+ path llo)),
     MkWorld d' (queries_of remote ++ map put_call pre ++ [put_call (llo, rlo)])).
Proof.
  intros Hvalid Hparts Hremote Hplan Hpre Hput.
  rewrite (run_deploy_staged _ _ _ _ _ _ Hvalid Hparts Hremote), Hplan.
  rewrite (upload_loop_aborts _ _ _ _ _ _ _ _ _ Hpre Hput).
  rewrite map_app. reflexivity.
Qed.

(** C8, as the code has it.  A deploy call on a specification without
    ['id'] never submits and never succeeds; when classification, hashing
    and the uploads succeed and the credentials are resolved, it raises
    [KeyError] for the key ['id'], after the existence queries and the
    uploads of the plan. *)
Theorem C8_missing_id_raises_key_error spec headers d :
  spec_id spec = None ->
  (exists e w, run_deploy spec headers d = (inl e, w) /\ Forall not_submission (calls w))
  /\ (forall local rest remote d1 credentials,
         (forall s, DbfsPath_validate (base_pipelines_dir +:+ s) = None) ->
         _partition_libraries_and_extract_local_paths (lib_objects_of spec)
         = inr (local, rest) ->
         hashed_lib_objects local = inr remote ->
         store_after_uploads d (plan_of d local remote) = Some d1 ->
         _get_credentials_for_request = inr credentials ->
         run_deploy spec headers d
         = (inl (KeyError "id"),
            MkWorld d1 (queries_of remote ++ map put_call (plan_of d local remote)))).
Proof.
  intros Hid. split.
  - destruct (run_deploy spec headers d) as [res w] eqn:Hrun.
    apply run_deploy_inv in Hrun as (before & Hns & _ & Hcases).
    destruct Hcases as [(e & -> & Hc)|(local & rest & remote & credentials & id
                                       & _ & _ & _ & Hsome & _)].
    + exists e, w. rewrite Hc. split; [reflexivity|exact Hns].
    + rewrite Hid in Hsome. discriminate Hsome.
  - intros local rest remote d1 credentials Hvalid Hparts Hremote Hup Hcred.
    rewrite (run_deploy_staged _ _ _ _ _ _ Hvalid Hparts Hremote).
    rewrite (upload_loop_succeeds _ _ _ _ Hup).
    rewrite rewrite_and_submit_run, Hcred, Hid. reflexivity.
Qed.

End Orchestrator.

(** ** The orchestrator on concrete specifications *)

Lemma staging_paths_valid (s : string) :
  DbfsPath_validate (Collaborators := Sim.staging_env) (base_pipelines_dir +:+ s) = None.
Proof. reflexivity. Qed.

Lemma staging_remote :
  hashed_lib_objects (C := Sim.staging_env) Sim.three_local = inr Sim.three_remote.
Proof. vm_compute. reflexivity. Qed.

Lemma C1_submitted_library_list_witness :
  let data :=
    MkSpec (Some [ [("whl", "s3://bucket/e.whl")]; [("jar", Sim.remote_a)] ])
           (Some "p1") (Some {[ "token" := Some "dapi123" ]}) ∅ in
  exists local rest remote,
    _partition_libraries_and_extract_local_paths (C := Sim.staging_env)
      (concat (map (map (fun item : string * string => LibObj (fst item) (snd item)))
                   (default [] (spec_libraries Sim.small_spec))))
    = inr (local, rest)
    /\ Forall2 (fun llo rlo =>
                  lib_type rlo = lib_type llo
                  /\ _get_hashed_path (C := Sim.staging_env) (path llo) = inr (path rlo))
               local remote
    /\ spec_libraries data
       = Some (map (fun lo => [(lib_type lo, path lo)]) rest
                 ++ map (fun lo => [(lib_type lo, path lo)]) remote)
    /\ length (map (fun lo : LibraryObject string => [(lib_type lo, path lo)]) rest
                 ++ map (fun lo : LibraryObject string => [(lib_type lo, path lo)]) remote)
       = (length rest + length local)%nat.
Proof.
  intros data.
  apply (C1_submitted_library_list
           (C := Sim.staging_env) Sim.small_spec None [] "PUT" "/pipelines/p1" data None).
  vm_compute. right. right. left. reflexivity.
Defined.

Lemma C5_plan_witness :
  _get_files_to_upload (C := Sim.staging_env) Sim.three_local Sim.three_remote
    (MkWorld (C := Sim.staging_env) Sim.store_with_a [])
  = (inr [(LibObj "jar" "/opt/libs/b.jar", LibObj "jar" (MkDbfsPath Sim.remote_b));
          (LibObj "jar" "/opt/libs/c.jar", LibObj "jar" (MkDbfsPath Sim.remote_c))],
     MkWorld (C := Sim.staging_env) Sim.store_with_a
             [FileExists (MkDbfsPath Sim.remote_a); FileExists (MkDbfsPath Sim.remote_b);
              FileExists (MkDbfsPath Sim.remote_c)]).
Proof.
  exact (proj1 (C5_plan_is_the_absent_pairs (C := Sim.staging_env))
               Sim.three_local Sim.three_remote Sim.store_with_a []
               staging_paths_valid staging_remote).
Defined.

Lemma C6_upload_failure_witness :
  run_deploy (C := Sim.staging_env) Sim.staging_spec None []
  = (inl (RuntimeError "Error 'upload refused' while uploading /opt/libs/b.jar"),
     MkWorld (C := Sim.staging_env) Sim.store_with_a
             [FileExists (MkDbfsPath Sim.remote_a); FileExists (MkDbfsPath Sim.remote_b);
              FileExists (MkDbfsPath Sim.remote_c);
              PutFile "/opt/libs/a.jar" (MkDbfsPath Sim.remote_a) false;
              PutFile "/opt/libs/b.jar" (MkDbfsPath Sim.remote_b) false]).
Proof.
  apply (C6_upload_failure_aborts
           (C := Sim.staging_env) Sim.staging_spec None []
           Sim.three_local [LibObj "jar" "s3://bucket/d.jar"] Sim.three_remote
           [(LibObj "jar" "/opt/libs/a.jar", LibObj "jar" (MkDbfsPath Sim.remote_a))]
           (LibObj "jar" "/opt/libs/b.jar") (LibObj "jar" (MkDbfsPath Sim.remote_b))
           [(LibObj "jar" "/opt/libs/c.jar", LibObj "jar" (MkDbfsPath Sim.remote_c))]
           Sim.store_with_a "upload refused" Sim.store_with_a).
  - exact staging_paths_valid.
  - vm_compute. reflexivity.
  - exact staging_remote.
  - vm_compute. reflexivity.
  - vm_compute. reflexivity.
  - vm_compute. reflexivity.
Defined.

Lemma C8_missing_id_witness :
  run_deploy (C := Sim.staging_env) Sim.spec_without_id None []
  = (inl (KeyError "id"),
     MkWorld (C := Sim.staging_env) Sim.store_with_a
             [FileExists (MkDbfsPath Sim.remote_a);
              PutFile "/opt/libs/a.jar" (MkDbfsPath Sim.remote_a) false]).
Proof.
  apply (proj2 (C8_missing_id_raises_key_error
                  (C := Sim.staging_env) Sim.spec_without_id None [] eq_refl)
               [LibObj "jar" "/opt/libs/a.jar"] [LibObj "whl" "s3://bucket/e.whl"]
               [LibObj "jar" Sim.remote_a] Sim.store_with_a {[ "token" := Some "dapi123" ]}).
  - exact staging_paths_valid.
  - vm_compute. reflexivity.
  - vm_compute. reflexivity.
  - vm_compute. reflexivity.
  - vm_compute. reflexivity.
Defined.

(** C8 as the specification words it does not hold: with the credentials
    resolved, the deploy of a specification without ['id'] raises
    [KeyError], which is not the configuration error. *)
Lemma C8_missing_id_counterexample :
  _get_credentials_for_request (C := Sim.staging_env) = inr {[ "token" := Some "dapi123" ]}
  /\ fst (run_deploy (C := Sim.staging_env) Sim.spec_without_id None [])
     = inl (KeyError "id")
  /\ ~ (exists profile,
           fst (run_deploy (C := Sim.staging_env) Sim.spec_without_id None [])
           = inl (InvalidConfigurationError profile)).
Proof.
  assert (Hrun : fst (run_deploy (C := Sim.staging_env) Sim.spec_without_id None [])
                 = inl (KeyError "id")) by (vm_compute; reflexivity).
  split; [vm_compute; reflexivity|]. split; [exact Hrun|].
  intros [profile Heq]. rewrite Hrun in Heq. discriminate Heq.
Qed.

(** * Further properties of the module *)

(** ** [LibraryObject] *)

(** X1.  [convert_to_libraries] gives one single-key mapping per library
    object, and converting these mappings back gives the library objects
    again, in order. *)
Theorem X1_objects_round_trip (lib_objects : list (LibraryObject string)) :
  convert_from_libraries (convert_to_libraries lib_objects) = lib_objects
  /\ Forall (fun library : Library => length library = 1%nat)
            (convert_to_libraries lib_objects)
  /\ length (convert_to_libraries lib_objects) = length lib_objects.
Proof.
  unfold convert_from_libraries, convert_to_libraries. split; [|split].
  - induction lib_objects as [|[t p] los IH]; [reflexivity|].
    cbn [map concat lib_type path fst snd app]. f_equal. exact IH.
  - induction lib_objects as [|lo los IH]; constructor; [reflexivity|exact IH].
  - apply length_map.
Qed.

(** X2.  [__eq__] answers [NotImplemented] for a value of another class;
    between library objects it answers [True] exactly when kind and path
    are the same, and [False] otherwise. *)
Theorem X2_eq_decides_equality (self other : LibraryObject string) :
  LibraryObject__eq__ self PyOther = NotImplemented
  /\ (LibraryObject__eq__ self (PyLibraryObject other) = Bool true <-> self = other)
  /\ (LibraryObject__eq__ self (PyLibraryObject other) = Bool false <-> self <> other).
Proof.
  split; [reflexivity|]. unfold LibraryObject__eq__.
  destruct self as [t p], other as [t' p']. cbn [path lib_type].
  destruct (String.eqb_spec p p') as [Hp|Hp], (String.eqb_spec t t') as [Ht|Ht];
    cbn [andb]; subst; split; split; intros H;
    try reflexivity; try discriminate H; congruence.
Qed.

(** ** More on the classifier *)

Section ClassifierMore.

Context `{C : Collaborators}.

Implicit Types (lo : LibraryObject string) (libs : list (LibraryObject string)).

Lemma is_local_jar lo : is_local lo = true -> lib_type lo = "jar".
Proof.
  unfold is_local. destruct (urlsplit_scheme (path lo)); [discriminate|].
  intros H. apply andb_true_iff in H as [H _]. apply String.eqb_eq. exact H.
Qed.

Lemma local_form_lib_type lo : lib_type (local_form lo) = lib_type lo.
Proof.
  unfold local_form. destruct (urlsplit_scheme (path lo)) as [e|[|a s]]; reflexivity.
Qed.

Lemma local_form_not_file lo :
  is_local lo = true -> is_file_jar lo = false -> local_form lo = lo.
Proof.
  unfold is_local, is_file_jar, local_form.
  destruct (urlsplit_scheme (path lo)) as [e|scheme]; [discriminate|].
  destruct (String.eqb (lib_type lo) "jar"); cbn [andb]; [|discriminate].
  intros Hl Hf. rewrite Hf, orb_false_r in Hl. apply String.eqb_eq in Hl.
  subst scheme. reflexivity.
Qed.

(** X3.  Only references of kind ["jar"] are treated as local: every
    reference of the local list has kind ["jar"], and every input reference
    of another kind is in the remote list, as it was. *)
Theorem X3_only_jars_are_local libs l r :
  _partition_libraries_and_extract_local_paths libs = inr (l, r) ->
  Forall (fun lo => lib_type lo = "jar") l
  /\ (forall lo, In lo libs -> lib_type lo <> "jar" -> In lo r).
Proof.
  intros Hc. apply partition_loop_filter in Hc as [-> ->]. cbn [app]. split.
  - apply List.Forall_forall. intros lo Hin.
    apply in_map_iff in Hin as [lo' [<- Hin]]. apply filter_In in Hin as [_ Hl].
    rewrite local_form_lib_type. apply is_local_jar. exact Hl.
  - intros lo Hin Hkind. apply filter_In. split; [exact Hin|].
    destruct (is_local lo) eqn:Hl; [|reflexivity].
    apply is_local_jar in Hl. contradiction.
Qed.

Lemma filter_split_permutation {A} (f : A -> bool) (l : list A) :
  Permutation (List.filter f l ++ List.filter (fun x => negb (f x)) l) l.
Proof.
  induction l as [|a l IH]; cbn [List.filter]; [constructor|].
  destruct (f a); cbn [negb app].
  - constructor. exact IH.
  - symmetry. apply Permutation_cons_app. symmetry. exact IH.
Qed.

(** X4.  When no input reference is a ["jar"] with the scheme [file], a
    successful classification only sorts the references: every input
    reference is in exactly one of the two lists, unchanged, and the two
    lists together are a rearrangement of the input. *)
Theorem X4_no_file_jar_partition libs l r :
  Forall (fun lo => is_file_jar lo = false) libs ->
  _partition_libraries_and_extract_local_paths libs = inr (l, r) ->
  Permutation (l ++ r) libs
  /\ (forall lo, In lo libs -> (In lo l /\ ~ In lo r) \/ (~ In lo l /\ In lo r)).
Proof.
  intros Hnofile Hc. apply partition_loop_filter in Hc as [-> ->]. cbn [app].
  assert (Hsame : map local_form (List.filter is_local libs) = List.filter is_local libs).
  { rewrite <- (map_id (List.filter is_local libs)) at 2.
    apply map_ext_in. intros lo Hin. apply filter_In in Hin as [Hin Hl].
    rewrite List.Forall_forall in Hnofile. apply local_form_not_file; auto. }
  rewrite Hsame. split; [apply filter_split_permutation|].
  intros lo Hin. destruct (is_local lo) eqn:Hl.
  - left. split.
    + apply filter_In. split; assumption.
    + intros Hr. apply filter_In in Hr as [_ Hr]. rewrite Hl in Hr. discriminate Hr.
  - right. split.
    + intros Hr. apply filter_In in Hr as [_ Hr]. rewrite Hl in Hr. discriminate Hr.
    + apply filter_In. split; [exact Hin|]. rewrite Hl. reflexivity.
Qed.

Lemma partition_loop_places libs : forall L R l r,
  partition_loop L R libs = inr (l, r) ->
  Forall (fun lo => exists p, place lo = inr p) libs.
Proof.
  induction libs as [|lo libs IH]; intros L R l r; cbn [partition_loop]; [constructor|].
  destruct (place lo) as [e|p] eqn:Hp; [discriminate|].
  intros Hrec. constructor; [exists p; exact Hp|].
  destruct p; eapply IH; exact Hrec.
Qed.

Lemma partition_loop_all_rest libs : forall L R,
  Forall (fun lo => place lo = inr (ToRest lo)) libs ->
  partition_loop L R libs = inr (L, R ++ libs).
Proof.
  induction libs as [|lo libs IH]; intros L R Hall; cbn [partition_loop].
  - rewrite app_nil_r. reflexivity.
  - inversion Hall as [|? ? Hlo Hrest]; subst. rewrite Hlo, IH by assumption.
    rewrite <- app_assoc. reflexivity.
Qed.

(** X5.  The remote list of a successful classification is stable:
    classifying it again succeeds, finds no local reference and returns it
    as the remote list. *)
Theorem X5_remote_list_is_stable libs l r :
  _partition_libraries_and_extract_local_paths libs = inr (l, r) ->
  _partition_libraries_and_extract_local_paths r = inr ([], r).
Proof.
  intros Hc. unfold _partition_libraries_and_extract_local_paths in *.
  pose proof (partition_loop_places _ _ _ _ _ Hc) as Hplaces.
  apply partition_loop_filter in Hc as [_ ->]. cbn [app].
  apply (partition_loop_all_rest _ [] []).
  apply List.Forall_forall. intros lo Hin. apply filter_In in Hin as [Hin Hl].
  rewrite List.Forall_forall in Hplaces. destruct (Hplaces lo Hin) as [p Hp].
  destruct (place_cases _ _ Hp) as [[_ Hloc]|[-> _]]; [|exact Hp].
  rewrite Hloc in Hl. discriminate Hl.
Qed.

(** X6.  The path of every reference is parsed, whatever its kind: when
    [urlsplit] raises on the path of a reference, classification of a list
    that holds it fails, with that exception when the references before it
    are classified without error. *)
Theorem X6_parse_error_is_raised_for_every_kind lo e pre post :
  urlsplit_scheme (path lo) = inl e ->
  (exists e', _partition_libraries_and_extract_local_paths (pre ++ lo :: post) = inl e')
  /\ (forall l r,
        _partition_libraries_and_extract_local_paths pre = inr (l, r) ->
        _partition_libraries_and_extract_local_paths (pre ++ lo :: post) = inl e).
Proof.
  intros Hparse. unfold _partition_libraries_and_extract_local_paths.
  rewrite partition_loop_app.
  assert (Hplace : place lo = inl e) by (unfold place; rewrite Hparse; reflexivity).
  destruct (partition_loop [] [] pre) as [e0|[l1 r1]].
  - split; [exists e0; reflexivity|]. intros l r [=].
  - cbn [partition_loop]. rewrite Hplace. split; [eexists; reflexivity|].
    intros; reflexivity.
Qed.

End ClassifierMore.

Lemma X3_only_jars_witness :
  Forall (fun lo => lib_type lo = "jar")
         [LibObj "jar" "/opt/a.jar"; LibObj "jar" "/opt/c.jar"]
  /\ (forall lo,
         In lo [LibObj "jar" "/opt/a.jar"; LibObj "whl" "/opt/b.whl";
                LibObj "jar" "FILE:/opt/c.jar"; LibObj "jar" "s3://bucket/d.jar"] ->
         lib_type lo <> "jar" ->
         In lo [LibObj "whl" "/opt/b.whl"; LibObj "jar" "s3://bucket/d.jar"]).
Proof.
  apply (X3_only_jars_are_local (C := Sim.plain_env)
           [LibObj "jar" "/opt/a.jar"; LibObj "whl" "/opt/b.whl";
            LibObj "jar" "FILE:/opt/c.jar"; LibObj "jar" "s3://bucket/d.jar"]).
  reflexivity.
Defined.

Lemma X4_no_file_jar_witness :
  Permutation ([LibObj "jar" "/opt/a.jar"; LibObj "jar" "rel/c.jar"]
                 ++ [LibObj "whl" "/opt/b.whl"; LibObj "jar" "s3://bucket/d.jar"])
              [LibObj "jar" "/opt/a.jar"; LibObj "whl" "/opt/b.whl";
               LibObj "jar" "rel/c.jar"; LibObj "jar" "s3://bucket/d.jar"]
  /\ (forall lo,
         In lo [LibObj "jar" "/opt/a.jar"; LibObj "whl" "/opt/b.whl";
                LibObj "jar" "rel/c.jar"; LibObj "jar" "s3://bucket/d.jar"] ->
         (In lo [LibObj "jar" "/opt/a.jar"; LibObj "jar" "rel/c.jar"]
          /\ ~ In lo [LibObj "whl" "/opt/b.whl"; LibObj "jar" "s3://bucket/d.jar"])
         \/ (~ In lo [LibObj "jar" "/opt/a.jar"; LibObj "jar" "rel/c.jar"]
             /\ In lo [LibObj "whl" "/opt/b.whl"; LibObj "jar" "s3://bucket/d.jar"])).
Proof.
  apply (X4_no_file_jar_partition (C := Sim.plain_env)
           [LibObj "jar" "/opt/a.jar"; LibObj "whl" "/opt/b.whl";
            LibObj "jar" "rel/c.jar"; LibObj "jar" "s3://bucket/d.jar"]).
  - repeat constructor.
  - reflexivity.
Defined.

Lemma X5_remote_list_witness :
  _partition_libraries_and_extract_local_paths (C := Sim.plain_env)
    [LibObj "whl" "/opt/b.whl"; LibObj "jar" "s3://bucket/d.jar"]
  = inr ([], [LibObj "whl" "/opt/b.whl"; LibObj "jar" "s3://bucket/d.jar"]).
Proof.
  apply (X5_remote_list_is_stable (C := Sim.plain_env)
           [LibObj "jar" "/opt/a.jar"; LibObj "whl" "/opt/b.whl";
            LibObj "jar" "FILE:/opt/c.jar"; LibObj "jar" "s3://bucket/d.jar"]
           [LibObj "jar" "/opt/a.jar"; LibObj "jar" "/opt/c.jar"]).
  reflexivity.
Defined.

Lemma X6_parse_error_witness :
  (exists e',
      _partition_libraries_and_extract_local_paths (C := Sim.plain_env)
        ([LibObj "jar" "/opt/a.jar"] ++ LibObj "whl" "http://[fe80/b.whl"
           :: [LibObj "jar" "/opt/c.jar"]) = inl e')
  /\ (forall l r,
        _partition_libraries_and_extract_local_paths (C := Sim.plain_env)
          [LibObj "jar" "/opt/a.jar"] = inr (l, r) ->
        _partition_libraries_and_extract_local_paths (C := Sim.plain_env)
          ([LibObj "jar" "/opt/a.jar"] ++ LibObj "whl" "http://[fe80/b.whl"
             :: [LibObj "jar" "/opt/c.jar"])
        = inl (ValueError "Invalid IPv6 URL")).
Proof.
  exact (X6_parse_error_is_raised_for_every_kind
           (C := Sim.plain_env) (LibObj "whl" "http://[fe80/b.whl")
           (ValueError "Invalid IPv6 URL")
           [LibObj "jar" "/opt/a.jar"] [LibObj "jar" "/opt/c.jar"] eq_refl).
Defined.

(** ** More on the hashed path *)

Section HashedPathMore.

Implicit Types (p s : string) (c : ascii).

(** X7.  The reading loop feeds every byte of the file to the hash object,
    once and in order, whatever the hash object already holds; reading one
    file after another is reading their concatenation. *)
Theorem X7_reading_loop_feeds_every_byte (hash_buffer : Hashlib.sha1_object)
        (f g : list byte) :
  Hashlib.fed (read_loop hash_buffer f) = Hashlib.fed hash_buffer ++ f
  /\ read_loop (read_loop hash_buffer f) g = read_loop hash_buffer (f ++ g).
Proof.
  rewrite !read_loop_feeds_all. unfold Hashlib.update. cbn [Hashlib.fed].
  split; [reflexivity|]. rewrite app_assoc. reflexivity.
Qed.

Lemma contains_append c s t :
  Py.contains c (s +:+ t) = Py.contains c s || Py.contains c t.
Proof.
  induction s as [|a s IH]; [reflexivity|].
  simpl. rewrite IH, orb_assoc. reflexivity.
Qed.

Lemma lower_hex_has_no_slash s :
  Py.all_chars is_lower_hex s = true -> Py.contains "/" s = false.
Proof.
  induction s as [|a s IH]; [reflexivity|]. cbn [Py.all_chars Py.contains].
  intros H. apply andb_true_iff in H as [Ha Hs]. rewrite (IH Hs), orb_false_r.
  destruct (Ascii.eqb_spec a "/") as [->|]; [discriminate Ha|reflexivity].
Qed.

Lemma final_segment_has_no_slash p : Py.contains "/" (final_segment p) = false.
Proof.
  induction p as [|a p IH]; [reflexivity|]. cbn [final_segment].
  destruct (Py.contains "/" (String a p)) eqn:Hc; [exact IH|exact Hc].
Qed.

Lemma split_last_dot_none s : split_last_dot s = None -> Py.contains "." s = false.
Proof.
  induction s as [|a s IH]; [reflexivity|]. cbn [split_last_dot Py.contains].
  destruct (split_last_dot s) as [[stem ext]|]; [discriminate|].
  destruct (Ascii.eqb a "."); [discriminate|]. intros _. apply IH. reflexivity.
Qed.

Lemma split_last_dot_some s : forall stem ext,
  split_last_dot s = Some (stem, ext) ->
  s = stem +:+ ext /\ exists e, ext = String "." e /\ Py.contains "." e = false.
Proof.
  induction s as [|a s IH]; intros stem ext; cbn [split_last_dot]; [discriminate|].
  destruct (split_last_dot s) as [[stem' ext']|] eqn:Hs.
  - intros [= <- <-]. destruct (IH _ _ eq_refl) as [-> He].
    split; [reflexivity|exact He].
  - destruct (Ascii.eqb_spec a ".") as [->|]; [|discriminate].
    intros [= <- <-]. split; [reflexivity|].
    exists s. split; [reflexivity|]. apply split_last_dot_none. exact Hs.
Qed.

Lemma extension_shape p :
  Py.contains "/" (extension p) = false
  /\ (extension p = EmptyString
      \/ exists e, extension p = String "." e /\ Py.contains "." e = false).
Proof.
  unfold extension. pose proof (final_segment_has_no_slash p) as Hseg.
  destruct (split_last_dot (final_segment p)) as [[stem ext]|] eqn:Hsplit.
  - apply split_last_dot_some in Hsplit as [Heq Hext]. rewrite Heq in Hseg.
    rewrite contains_append in Hseg. apply orb_false_iff in Hseg as [_ Hslash].
    destruct (Py.all_chars _ stem).
    + split; [reflexivity|left; reflexivity].
    + split; [exact Hslash|right; exact Hext].
  - split; [reflexivity|left; reflexivity].
Qed.

Context `{C : Collaborators}.

(** X8.  Every derived remote path is a direct child of the base
    directory: it is [base_pipelines_dir] followed by a name without ['/'],
    made of the forty digits of the digest and of an extension that is
    empty or is one ['.'] followed by text without ['.']. *)
Theorem X8_derived_path_is_a_child_of_the_base_directory p q :
  _get_hashed_path p = inr q ->
  exists digest ext,
    q = base_pipelines_dir +:+ digest +:+ ext
    /\ String.length digest = 40%nat
    /\ Py.contains "/" (digest +:+ ext) = false
    /\ (ext = EmptyString \/ exists e, ext = String "." e /\ Py.contains "." e = false).
Proof.
  unfold _get_hashed_path. destruct (open_rb p) as [e|f]; [discriminate|].
  rewrite splitext_extension. intros [= <-].
  destruct (hex_of_shape (Hashlib.digest (Hashlib.fed (read_loop Hashlib.sha1 f))))
    as [Hlen Hhex].
  destruct (extension_shape p) as [Hslash Hshape].
  eexists _, _. split; [reflexivity|]. split; [exact Hlen|]. split; [|exact Hshape].
  rewrite contains_append, Hslash, orb_false_r. apply lower_hex_has_no_slash. exact Hhex.
Qed.

End HashedPathMore.

Lemma X8_derived_path_witness :
  exists digest ext,
    "dbfs:/pipelines/code/a9993e364706816aba3e25717850c26c9cd0d89d.jar"
    = base_pipelines_dir +:+ digest +:+ ext
    /\ String.length digest = 40%nat
    /\ Py.contains "/" (digest +:+ ext) = false
    /\ (ext = EmptyString \/ exists e, ext = String "." e /\ Py.contains "." e = false).
Proof.
  apply (X8_derived_path_is_a_child_of_the_base_directory
           (C := Sim.files_env) "/opt/libs/app.tar.jar").
  vm_compute. reflexivity.
Defined.

(** ** More on planning, uploading and submitting *)

Section DeployMore.

Context `{C : Collaborators}.

Implicit Types (local rest remote : list (LibraryObject string))
         (plan : list (LibraryObject string * LibraryObject DbfsPath))
         (w : World) (d : Dbfs).

Ltac run_monad :=
  unfold bind, lift, ret, raise, call_file_exists, call_put_file, call_perform_query,
    logged; cbn [dbfs calls fst snd].

Lemma hashed_path_of_content p f :
  open_rb p = inr f ->
  _get_hashed_path p
  = inr (base_pipelines_dir +:+ Hashlib.hex_of (Hashlib.digest f) +:+ extension p).
Proof.
  intros Hopen. unfold _get_hashed_path. rewrite Hopen.
  rewrite read_loop_feeds_all, splitext_extension. reflexivity.
Qed.

Lemma hashed_lib_objects_app local1 local2 :
  hashed_lib_objects (local1 ++ local2) =
  match hashed_lib_objects local1 with
  | inl e => inl e
  | inr remote1 =>
      match hashed_lib_objects local2 with
      | inl e => inl e
      | inr remote2 => inr (remote1 ++ remote2)
      end
  end.
Proof.
  induction local1 as [|llo local1 IH]; cbn [app hashed_lib_objects].
  - destruct (hashed_lib_objects local2); reflexivity.
  - destruct (_get_hashed_path (path llo)); [reflexivity|]. rewrite IH.
    destruct (hashed_lib_objects local1); [reflexivity|].
    destruct (hashed_lib_objects local2); reflexivity.
Qed.

Lemma hashed_lib_objects_readable local :
  Forall (fun llo => exists f, open_rb (path llo) = inr f) local ->
  exists remote, hashed_lib_objects local = inr remote.
Proof.
  induction 1 as [|llo local [f Hf] _ [remote IH]]; cbn [hashed_lib_objects].
  - eexists. reflexivity.
  - rewrite (hashed_path_of_content _ _ Hf), IH. eexists. reflexivity.
Qed.

(** X9.  Classification and hashing come before any call to the store or
    to the transport: when classification fails, or when a local file
    cannot be read while the local files before it can, the deploy call
    raises that error (for the file, the error that names it and carries
    the cause), makes no call at all and leaves the store as it was. *)
Theorem X9_early_failure_touches_nothing spec headers d :
  (forall e,
      _partition_libraries_and_extract_local_paths (lib_objects_of spec) = inl e ->
      run_deploy spec headers d = (inl e, MkWorld d []))
  /\ (forall pre llo post rest msg,
         _partition_libraries_and_extract_local_paths (lib_objects_of spec)
         = inr (pre ++ llo :: post, rest) ->
         Forall (fun l => exists f, open_rb (path l) = inr f) pre ->
         open_rb (path llo) = inl msg ->
         run_deploy spec headers d
         = (inl (RuntimeError ("Error '" +:+ msg +:+ "' while processing " +:+ path llo)),
            MkWorld d [])).
Proof.
  split.
  - intros e He. rewrite run_deploy_chain. run_monad.
    rewrite He. reflexivity.
  - intros pre llo post rest msg Hparts Hpre Hopen.
    rewrite run_deploy_chain. run_monad.
    rewrite Hparts. cbn [fst snd]. rewrite hashed_lib_objects_app.
    destruct (hashed_lib_objects_readable _ Hpre) as [remote ->].
    cbn [hashed_lib_objects]. unfold _get_hashed_path at 1. rewrite Hopen. reflexivity.
Qed.

Lemma planner_pairs local : forall remote w plan w',
  _get_files_to_upload local remote w = (inr plan, w') ->
  forall pr, In pr plan -> In pr (combine local (map transformed remote)).
Proof.
  induction local as [|llo local IH]; intros remote w plan w'.
  - cbn [_get_files_to_upload]. run_monad. intros [= <- <-] pr [].
  - destruct remote as [|rlo remote].
    { cbn [_get_files_to_upload]. run_monad. intros [= <- <-] pr []. }
    cbn [_get_files_to_upload]. unfold new_DbfsPath.
    destruct (DbfsPath_validate (path rlo)) as [e|]; [run_monad; discriminate|].
    run_monad.
    destruct (_get_files_to_upload local remote _) as [[e|files] w1] eqn:Hrec;
      [discriminate|].
    intros [= <- <-] pr Hin. cbn [combine map]. fold (transformed rlo).
    destruct (file_exists (dbfs w) _).
    + right. eapply IH; eassumption.
    + destruct Hin as [<-|Hin]; [left; reflexivity|]. right. eapply IH; eassumption.
Qed.

Lemma combine_pairwise (P : LibraryObject string -> LibraryObject string -> Prop)
      local remote :
  Forall2 P local remote ->
  forall a b, In (a, b) (combine local (map transformed remote)) ->
              exists r, b = transformed r /\ P a r /\ In a local.
Proof.
  induction 1 as [|llo rlo local remote Hp _ IH]; intros a b; cbn [combine map].
  - intros [].
  - intros [Heq|Hin].
    + injection Heq as <- <-. exists rlo. split; [reflexivity|]. split; [exact Hp|].
      left. reflexivity.
    + destruct (IH _ _ Hin) as (r & -> & Hr & Ha). exists r.
      split; [reflexivity|]. split; [exact Hr|]. right. exact Ha.
Qed.

(** The calls of a run of [deploy]: existence queries, then uploads of
    local files to their hashed paths, then at most one submission. *)
Lemma run_deploy_trace spec headers d res w :
  run_deploy spec headers d = (res, w) ->
  exists qs ps ss,
    calls w = qs ++ ps ++ ss
    /\ Forall is_query qs
    /\ Forall (uploads_local_library spec) ps
    /\ ((ss = [] /\ exists e, res = inl e)
        \/ (exists id data, spec_id spec = Some id
                            /\ ss = [PerformQuery "PUT" ("/pipelines/" +:+ id) data headers])).
Proof.
  rewrite run_deploy_chain. run_monad.
  destruct (_partition_libraries_and_extract_local_paths (lib_objects_of spec))
    as [e|[local rest]] eqn:Hparts.
  { intros [= <- <-]. exists [], [], [].
    split; [reflexivity|]. split; [constructor|]. split; [constructor|].
    left. split; [reflexivity|eexists; reflexivity]. }
  cbn [fst snd].
  destruct (hashed_lib_objects local) as [e|remote] eqn:Hremote.
  { intros [= <- <-]. exists [], [], [].
    split; [reflexivity|]. split; [constructor|]. split; [constructor|].
    left. split; [reflexivity|eexists; reflexivity]. }
  pose proof (hashed_lib_objects_pairwise _ _ Hremote) as Hpairs.
  destruct (_get_files_to_upload local remote (MkWorld d [])) as [r1 w1] eqn:Hplan.
  pose proof (planner_effects _ _ _ _ _ Hplan) as (_ & (qs & Hc1 & Hqs) & _).
  cbn [calls app] in Hc1.
  destruct r1 as [e|plan].
  { intros [= <- <-]. exists qs, [], []. rewrite !app_nil_r.
    split; [exact Hc1|]. split; [exact Hqs|]. split; [constructor|].
    left. split; [reflexivity|eexists; reflexivity]. }
  pose proof (planner_pairs _ _ _ _ _ Hplan) as Hsub.
  destruct (upload_loop plan w1) as [r2 w2] eqn:Hup.
  apply upload_loop_calls in Hup as [k Hc2]. rewrite Hc1 in Hc2.
  assert (Hps : Forall (uploads_local_library spec) (map put_call (firstn k plan))).
  { apply List.Forall_forall. intros c Hin.
    apply in_map_iff in Hin as [[a b] [<- Hin]].
    assert (Hplan_in : In (a, b) plan).
    { rewrite <- (firstn_skipn k plan). apply in_or_app. left. exact Hin. }
    apply Hsub in Hplan_in.
    destruct (combine_pairwise _ _ _ Hpairs _ _ Hplan_in) as (r & -> & [_ Hq] & Ha).
    exists local, rest, a, (path r). repeat split; assumption. }
  destruct r2 as [e|[]].
  { intros [= <- <-]. exists qs, (map put_call (firstn k plan)), [].
    rewrite app_nil_r. split; [exact Hc2|]. split; [exact Hqs|]. split; [exact Hps|].
    left. split; [reflexivity|eexists; reflexivity]. }
  rewrite rewrite_and_submit_run.
  destruct _get_credentials_for_request as [e|credentials].
  { intros [= <- <-]. exists qs, (map put_call (firstn k plan)), [].
    rewrite app_nil_r. split; [exact Hc2|]. split; [exact Hqs|]. split; [exact Hps|].
    left. split; [reflexivity|eexists; reflexivity]. }
  destruct (spec_id spec) as [id|].
  - intros [= <- <-]. eexists qs, (map put_call (firstn k plan)), [_].
    cbn [calls]. rewrite Hc2, <- app_assoc.
    split; [reflexivity|]. split; [exact Hqs|]. split; [exact Hps|].
    right. eexists _, _. split; reflexivity.
  - intros [= <- <-]. exists qs, (map put_call (firstn k plan)), [].
    rewrite app_nil_r. split; [exact Hc2|]. split; [exact Hqs|]. split; [exact Hps|].
    left. split; [reflexivity|eexists; reflexivity].
Qed.

(** X10.  Whatever happens, the calls of a deploy call come in three
    phases: existence queries first, then uploads, then at most one
    submission, which is a [PUT] on ["/pipelines/"] followed by the ['id']
    of the specification, with the headers given; a deploy call that
    returns normally has submitted. *)
Theorem X10_calls_come_in_three_phases spec headers d :
  exists qs ps ss,
    calls (snd (run_deploy spec headers d)) = qs ++ ps ++ ss
    /\ Forall is_query qs
    /\ Forall is_put ps
    /\ (ss = []
        \/ exists id data, spec_id spec = Some id
                           /\ ss = [PerformQuery "PUT" ("/pipelines/" +:+ id) data headers])
    /\ (fst (run_deploy spec headers d) = inr tt -> ss <> []).
Proof.
  destruct (run_deploy spec headers d) as [res w] eqn:Hrun. cbn [fst snd].
  apply run_deploy_trace in Hrun as (qs & ps & ss & Hc & Hqs & Hps & Hss).
  exists qs, ps, ss. split; [exact Hc|]. split; [exact Hqs|]. split.
  - eapply List.Forall_impl; [|exact Hps].
    intros c (local & rest & llo & q & _ & _ & _ & ->). exact I.
  - destruct Hss as [[-> [e ->]]|(id & data & Hid & ->)].
    + split; [left; reflexivity|]. intros [=].
    + split; [right; eexists _, _; split; [exact Hid|reflexivity]|]. intros _ [=].
Qed.

(** X11.  A deploy call never overwrites and never uploads anything but a
    local library to its own hashed path: every upload it makes has the
    overwrite flag off, its source is the path of a local reference of the
    classification, and its target is the hashed path of that source. *)
Theorem X11_uploads_go_to_the_hashed_path spec headers d src dst overwrite :
  In (PutFile src dst overwrite) (calls (snd (run_deploy spec headers d))) ->
  overwrite = false
  /\ _get_hashed_path src = inr (absolute_path dst)
  /\ exists local rest llo,
      _partition_libraries_and_extract_local_paths (lib_objects_of spec) = inr (local, rest)
      /\ In llo local /\ path llo = src.
Proof.
  destruct (run_deploy spec headers d) as [res w] eqn:Hrun. cbn [snd].
  apply run_deploy_trace in Hrun as (qs & ps & ss & -> & Hqs & Hps & Hss).
  intros Hin. apply in_app_or in Hin as [Hin|Hin].
  { rewrite List.Forall_forall in Hqs. apply Hqs in Hin. destruct Hin. }
  apply in_app_or in Hin as [Hin|Hin].
  - rewrite List.Forall_forall in Hps.
    destruct (Hps _ Hin) as (local & rest & llo & q & Hparts & Hllo & Hq & Heq).
    injection Heq as -> -> ->. split; [reflexivity|]. split; [exact Hq|].
    exists local, rest, llo. repeat split; assumption.
  - destruct Hss as [[-> _]|(id & data & _ & ->)]; [destruct Hin|].
    destruct Hin as [Heq|[]]. discriminate Heq.
Qed.

End DeployMore.

Section DeployOutcomes.

Context `{C : Collaborators}.

Implicit Types (local rest remote : list (LibraryObject string))
         (plan : list (LibraryObject string * LibraryObject DbfsPath))
         (w : World) (d : Dbfs).

Ltac run_monad :=
  unfold bind, lift, ret, raise, call_file_exists, call_put_file, call_perform_query,
    logged; cbn [dbfs calls fst snd].

(** X12.  When classification, hashing, the uploads and the resolution of
    the credentials succeed and the specification has an ['id'], the deploy
    call makes the existence queries, the uploads of the plan and one
    submission, in this order, and its result is that of the transport: it
    returns normally when the transport does and raises the exception of
    the transport, unchanged, otherwise.  What is submitted keeps the
    ['id'] and the other entries of the specification and carries the
    resolved credentials. *)
Theorem X12_complete_run spec headers d local rest remote d1 credentials id :
  (forall s, DbfsPath_validate (base_pipelines_dir +:+ s) = None) ->
  _partition_libraries_and_extract_local_paths (lib_objects_of spec) = inr (local, rest) ->
  hashed_lib_objects local = inr remote ->
  store_after_uploads d (plan_of d local remote) = Some d1 ->
  _get_credentials_for_request = inr credentials ->
  spec_id spec = Some id ->
  let data := submitted_spec spec rest remote credentials in
  run_deploy spec headers d
  = (match perform_query "PUT" ("/pipelines/" +:+ id) data headers with
     | Some e => inl e
     | None => inr tt
     end,
     MkWorld d1 (queries_of remote ++ map put_call (plan_of d local remote)
                   ++ [PerformQuery "PUT" ("/pipelines/" +:+ id) data headers]))
  /\ spec_id data = Some id
  /\ spec_other data = spec_other spec
  /\ spec_credentials data = Some credentials.
Proof.
  intros Hvalid Hparts Hremote Hup Hcred Hid data.
  split; [|split; [exact Hid|split; reflexivity]].
  rewrite (run_deploy_staged _ _ _ _ _ _ Hvalid Hparts Hremote).
  rewrite (upload_loop_succeeds _ _ _ _ Hup).
  rewrite rewrite_and_submit_run, Hcred, Hid. cbn [dbfs calls].
  rewrite <- app_assoc. reflexivity.
Qed.

(** X13.  The credentials are resolved after the uploads: when they cannot
    be resolved, the deploy call raises the error of the resolution and
    submits nothing, but the uploads of the plan have been made and stay in
    the store. *)
Theorem X13_credentials_fail_after_the_uploads spec headers d local rest remote d1 e :
  (forall s, DbfsPath_validate (base_pipelines_dir +:+ s) = None) ->
  _partition_libraries_and_extract_local_paths (lib_objects_of spec) = inr (local, rest) ->
  hashed_lib_objects local = inr remote ->
  store_after_uploads d (plan_of d local remote) = Some d1 ->
  _get_credentials_for_request = inl e ->
  run_deploy spec headers d
  = (inl e, MkWorld d1 (queries_of remote ++ map put_call (plan_of d local remote))).
Proof.
  intros Hvalid Hparts Hremote Hup Hcred.
  rewrite (run_deploy_staged _ _ _ _ _ _ Hvalid Hparts Hremote).
  rewrite (upload_loop_succeeds _ _ _ _ Hup).
  rewrite rewrite_and_submit_run, Hcred. reflexivity.
Qed.

Lemma store_after_uploads_keeps plan :
  uploads_keep ->
  forall d d1, store_after_uploads d plan = Some d1 ->
               forall p, file_exists d p = true -> file_exists d1 p = true.
Proof.
  intros Hkeep. induction plan as [|pr plan IH]; intros d d1; cbn [store_after_uploads].
  - intros [= <-] p Hp. exact Hp.
  - destruct (put_file d (path (fst pr)) (path (snd pr)) false) as [[e|u] d'] eqn:Hput;
      [discriminate|].
    intros Hrest p Hp. eapply IH; [exact Hrest|]. eapply Hkeep; eassumption.
Qed.

Lemma store_after_uploads_records plan :
  uploads_keep -> uploads_record ->
  forall d d1, store_after_uploads d plan = Some d1 ->
               forall pr, In pr plan -> file_exists d1 (path (snd pr)) = true.
Proof.
  intros Hkeep Hrecord.
  induction plan as [|pr0 plan IH]; intros d d1; cbn [store_after_uploads].
  - intros _ pr [].
  - destruct (put_file d (path (fst pr0)) (path (snd pr0)) false) as [[e|[]] d'] eqn:Hput;
      [discriminate|].
    intros Hrest pr [<-|Hin].
    + eapply store_after_uploads_keeps; [exact Hkeep|exact Hrest|].
      eapply Hrecord. exact Hput.
    + eapply IH; eassumption.
Qed.

Lemma filter_nothing {A} (f : A -> bool) (l : list A) :
  (forall x, In x l -> f x = false) -> List.filter f l = [].
Proof.
  induction l as [|a l IH]; intros Hall; cbn [List.filter]; [reflexivity|].
  rewrite (Hall a) by (left; reflexivity). apply IH. intros x Hx. apply Hall.
  right. exact Hx.
Qed.

Lemma convert_from_to_libraries (lib_objects : list (LibraryObject string)) :
  convert_from_libraries (convert_to_libraries lib_objects) = lib_objects.
Proof.
  unfold convert_from_libraries, convert_to_libraries.
  induction lib_objects as [|[t p] los IH]; [reflexivity|].
  cbn [map concat lib_type path fst snd app]. f_equal. exact IH.
Qed.

Lemma deploy_staged spec headers d local rest remote :
  (forall s, DbfsPath_validate (base_pipelines_dir +:+ s) = None) ->
  _partition_libraries_and_extract_local_paths (lib_objects_of spec) = inr (local, rest) ->
  hashed_lib_objects local = inr remote ->
  deploy spec headers (MkWorld d []) =
  match upload_loop (plan_of d local remote) (MkWorld d (queries_of remote)) with
  | (inl e, w) => ((inl e, spec), w)
  | (inr _, w) => rewrite_and_submit spec headers rest remote w
  end.
Proof.
  intros Hvalid Hparts Hremote. unfold deploy. fold (lib_objects_of spec). run_monad.
  rewrite Hparts. cbn [fst snd]. rewrite Hremote.
  rewrite planner_run.
  - cbn [app]. destruct (upload_loop _ _) as [[e|[]] w]; reflexivity.
  - apply hashed_lib_objects_pairwise in Hremote. symmetry.
    eapply Forall2_length. exact Hremote.
  - eapply hashed_lib_objects_valid; eassumption.
Qed.

Lemma rewritten_list_is_remote local rest remote libs l :
  (forall s, urlsplit_scheme (base_pipelines_dir +:+ s) = inr "dbfs") ->
  _partition_libraries_and_extract_local_paths libs = inr (l, rest) ->
  hashed_lib_objects local = inr remote ->
  _partition_libraries_and_extract_local_paths (rest ++ remote) = inr ([], rest ++ remote).
Proof.
  intros Hdbfs Hparts Hremote. unfold _partition_libraries_and_extract_local_paths in *.
  apply (partition_loop_all_rest _ [] []). apply Forall_app. split.
  - pose proof (partition_loop_places _ _ _ _ _ Hparts) as Hplaces.
    apply partition_loop_filter in Hparts as [_ ->]. cbn [app].
    apply List.Forall_forall. intros lo Hin. apply filter_In in Hin as [Hin Hl].
    rewrite List.Forall_forall in Hplaces. destruct (Hplaces lo Hin) as [p Hp].
    destruct (place_cases _ _ Hp) as [[_ Hloc]|[-> _]]; [|exact Hp].
    rewrite Hloc in Hl. discriminate Hl.
  - apply hashed_lib_objects_pairwise in Hremote.
    induction Hremote as [|llo rlo local remote [_ Hq] _ IH]; constructor; [|exact IH].
    destruct (hashed_path_under_base _ _ Hq) as [s Hs].
    unfold place. rewrite Hs, Hdbfs.
    destruct (String.eqb (lib_type rlo) "jar"); reflexivity.
Qed.

(** X14.  Deploying again uploads nothing.  After a deploy call that
    reached the submission, the [dict] of the caller is what was
    submitted: its library list holds remote paths only.  With a parser
    that gives the scheme [dbfs] to the paths under the base directory, a
    second deploy call on that same [dict] reads no file, makes no
    existence query and no upload, submits the same content again and
    leaves the [dict] and the store as they were.  A second deploy call on
    a fresh copy of the original specification makes the existence
    queries and the submission only, on a store where an upload removes
    nothing and a successful upload makes its target exist. *)
Theorem X14_second_deploy_uploads_nothing spec headers d local rest remote d1
        credentials id :
  (forall s, urlsplit_scheme (base_pipelines_dir +:+ s) = inr "dbfs") ->
  (forall s, DbfsPath_validate (base_pipelines_dir +:+ s) = None) ->
  _partition_libraries_and_extract_local_paths (lib_objects_of spec) = inr (local, rest) ->
  hashed_lib_objects local = inr remote ->
  store_after_uploads d (plan_of d local remote) = Some d1 ->
  _get_credentials_for_request = inr credentials ->
  spec_id spec = Some id ->
  let data := submitted_spec spec rest remote credentials in
  spec_after_deploy spec headers d = data
  /\ calls (snd (run_deploy data headers d1))
     = [PerformQuery "PUT" ("/pipelines/" +:+ id) data headers]
  /\ dbfs (snd (run_deploy data headers d1)) = d1
  /\ spec_after_deploy data headers d1 = data
  /\ (uploads_keep -> uploads_record ->
      plan_of d1 local remote = []
      /\ calls (snd (run_deploy spec headers d1))
         = queries_of remote ++ [PerformQuery "PUT" ("/pipelines/" +:+ id) data headers]
      /\ dbfs (snd (run_deploy spec headers d1)) = d1).
Proof.
  intros Hdbfs Hvalid Hparts Hremote Hup Hcred Hid data.
  assert (Hobjects : lib_objects_of data = rest ++ remote).
  { unfold lib_objects_of, data, submitted_spec, set_credentials, set_libraries.
    cbn [spec_libraries default]. apply convert_from_to_libraries. }
  assert (Hparts2 : _partition_libraries_and_extract_local_paths (lib_objects_of data)
                    = inr ([], rest ++ remote)).
  { rewrite Hobjects. eapply rewritten_list_is_remote; eassumption. }
  assert (Hsame : submitted_spec data (rest ++ remote) [] credentials = data).
  { unfold data, submitted_spec, set_credentials, set_libraries.
    cbn [spec_id spec_other]. rewrite app_nil_r. reflexivity. }
  assert (Hid2 : spec_id data = Some id) by exact Hid.
  split; [|split; [|split; [|split]]].
  - unfold spec_after_deploy.
    rewrite (deploy_staged _ _ _ _ _ _ Hvalid Hparts Hremote).
    rewrite (upload_loop_succeeds _ _ _ _ Hup).
    unfold rewrite_and_submit. rewrite Hcred.
    fold (submitted_spec spec rest remote credentials). unfold spec_getitem_id.
    change (spec_id (submitted_spec spec rest remote credentials)) with (spec_id spec).
    rewrite Hid. reflexivity.
  - rewrite (run_deploy_staged _ _ _ _ _ _ Hvalid Hparts2 eq_refl).
    unfold plan_of, queries_of. cbn [map combine List.filter upload_loop]. run_monad.
    rewrite rewrite_and_submit_run, Hcred, Hid2, Hsame. reflexivity.
  - rewrite (run_deploy_staged _ _ _ _ _ _ Hvalid Hparts2 eq_refl).
    unfold plan_of, queries_of. cbn [map combine List.filter upload_loop]. run_monad.
    rewrite rewrite_and_submit_run, Hcred, Hid2. reflexivity.
  - unfold spec_after_deploy.
    rewrite (deploy_staged _ _ _ _ _ _ Hvalid Hparts2 eq_refl).
    unfold plan_of, queries_of. cbn [map combine List.filter upload_loop]. run_monad.
    unfold rewrite_and_submit. rewrite Hcred.
    fold (submitted_spec data (rest ++ remote) [] credentials). unfold spec_getitem_id.
    rewrite Hsame, Hid2. reflexivity.
  - intros Hkeep Hrecord.
    assert (Hempty : plan_of d1 local remote = []).
    { unfold plan_of. apply filter_nothing. intros pr Hin.
      apply negb_false_iff.
      destruct (file_exists d (path (snd pr))) eqn:Hd.
      - eapply store_after_uploads_keeps; eassumption.
      - eapply store_after_uploads_records; try eassumption.
        unfold plan_of. apply filter_In. split; [exact Hin|]. rewrite Hd. reflexivity. }
    split; [exact Hempty|].
    rewrite (run_deploy_staged _ _ _ _ _ _ Hvalid Hparts Hremote), Hempty.
    cbn [upload_loop]. run_monad.
    rewrite rewrite_and_submit_run, Hcred, Hid. cbn [snd calls dbfs].
    split; reflexivity.
Qed.

(** X15.  A specification without libraries, or with an empty list of
    them, is submitted at once: no file is read, no existence query and no
    upload is made, and what is submitted has an empty library list,
    whether the specification had the entry or not. *)
Theorem X15_no_library_means_no_store_access spec headers d credentials id :
  spec_libraries spec = None \/ spec_libraries spec = Some [] ->
  _get_credentials_for_request = inr credentials ->
  spec_id spec = Some id ->
  calls (snd (run_deploy spec headers d))
  = [PerformQuery "PUT" ("/pipelines/" +:+ id)
                  (submitted_spec spec [] [] credentials) headers]
  /\ dbfs (snd (run_deploy spec headers d)) = d
  /\ spec_libraries (submitted_spec spec [] [] credentials) = Some [].
Proof.
  intros Hlibs Hcred Hid.
  assert (Hobjects : lib_objects_of spec = []).
  { unfold lib_objects_of. destruct Hlibs as [->| ->]; reflexivity. }
  assert (Hrun : run_deploy spec headers d
                 = submit_outcome spec headers [] [] (MkWorld d [])).
  { rewrite run_deploy_chain, Hobjects. reflexivity. }
  rewrite Hrun, rewrite_and_submit_run, Hcred, Hid. cbn [snd calls dbfs app].
  repeat split.
Qed.

Lemma combine_app_same_length {A B} (l1 l2 : list A) (k1 k2 : list B) :
  length l1 = length k1 ->
  combine (l1 ++ l2) (k1 ++ k2) = combine l1 k1 ++ combine l2 k2.
Proof.
  revert k1. induction l1 as [|a l1 IH]; intros [|b k1] Hlen; try discriminate Hlen.
  - reflexivity.
  - cbn [app combine]. f_equal. apply IH. injection Hlen as Hlen. exact Hlen.
Qed.

(** X16.  Within one deploy call nothing is deduplicated: two local
    references whose files have the same bytes and the same extension get
    the same remote path, and when the store does not hold it the plan
    [_get_files_to_upload] returns for the local references and their
    derived remote references has an upload to that path for each of
    them. *)
Theorem X16_same_content_is_planned_twice d pre l1 mid l2 post remote f :
  (forall s, DbfsPath_validate (base_pipelines_dir +:+ s) = None) ->
  hashed_lib_objects (pre ++ l1 :: mid ++ l2 :: post) = inr remote ->
  open_rb (path l1) = inr f ->
  open_rb (path l2) = inr f ->
  extension (path l1) = extension (path l2) ->
  let target :=
    MkDbfsPath (base_pipelines_dir +:+ Hashlib.hex_of (Hashlib.digest f)
                  +:+ extension (path l1)) in
  file_exists d target = false ->
  _get_hashed_path (path l1) = inr (absolute_path target)
  /\ _get_hashed_path (path l2) = inr (absolute_path target)
  /\ exists before between after,
      forall log,
        _get_files_to_upload (pre ++ l1 :: mid ++ l2 :: post) remote (MkWorld d log)
        = (inr (before ++ (l1, LibObj (lib_type l1) target)
                  :: between ++ (l2, LibObj (lib_type l2) target) :: after),
           MkWorld d (log ++ queries_of remote)).
Proof.
  intros Hvalid Hremote Hf1 Hf2 Hext target Habsent. subst target.
  split; [apply hashed_path_of_content; exact Hf1|].
  split; [rewrite Hext; apply hashed_path_of_content; exact Hf2|].
  assert (Hplan : exists before between after,
             plan_of d (pre ++ l1 :: mid ++ l2 :: post) remote
             = before ++ (l1, LibObj (lib_type l1)
                                (MkDbfsPath (base_pipelines_dir
                                               +:+ Hashlib.hex_of (Hashlib.digest f)
                                               +:+ extension (path l1))))
                 :: between ++ (l2, LibObj (lib_type l2)
                                      (MkDbfsPath (base_pipelines_dir
                                                     +:+ Hashlib.hex_of (Hashlib.digest f)
                                                     +:+ extension (path l1))))
                 :: after).
  { pose proof Hremote as Hall.
    rewrite hashed_lib_objects_app in Hremote.
    destruct (hashed_lib_objects pre) as [e|rpre] eqn:Hpre; [discriminate|].
    cbn [hashed_lib_objects] in Hremote.
    rewrite (hashed_path_of_content _ _ Hf1) in Hremote.
    rewrite hashed_lib_objects_app in Hremote.
    destruct (hashed_lib_objects mid) as [e|rmid] eqn:Hmid; [discriminate|].
    cbn [hashed_lib_objects] in Hremote.
    rewrite (hashed_path_of_content _ _ Hf2), <- Hext in Hremote.
    destruct (hashed_lib_objects post) as [e|rpost] eqn:Hpost; [discriminate|].
    injection Hremote as <-.
    pose proof (Forall2_length _ _ _ (hashed_lib_objects_pairwise _ _ Hpre)) as Lpre.
    pose proof (Forall2_length _ _ _ (hashed_lib_objects_pairwise _ _ Hmid)) as Lmid.
    unfold plan_of. rewrite map_app. cbn [map]. rewrite map_app. cbn [map].
    rewrite combine_app_same_length by (rewrite length_map; exact Lpre).
    cbn [combine]. rewrite combine_app_same_length by (rewrite length_map; exact Lmid).
    cbn [combine]. unfold transformed. cbn [lib_type path].
    rewrite List.filter_app. cbn [List.filter snd path]. rewrite Habsent. cbn [negb].
    rewrite List.filter_app. cbn [List.filter snd path]. rewrite Habsent. cbn [negb].
    eexists _, _, _. reflexivity. }
  destruct Hplan as (before & between & after & Hplan).
  exists before, between, after. intros log. rewrite <- Hplan. apply planner_run.
  - apply hashed_lib_objects_pairwise in Hremote. symmetry.
    eapply Forall2_length. exact Hremote.
  - eapply hashed_lib_objects_valid; eassumption.
Qed.

(** X17.  [_get_files_to_upload] pairs the two lists up to the shorter
    one: local references without a remote counterpart and remote
    references without a local counterpart are ignored, and no existence
    query is made for them. *)
Theorem X17_planner_stops_at_the_shorter_list local : forall remote extra w,
  length remote = length local ->
  _get_files_to_upload local (remote ++ extra) w = _get_files_to_upload local remote w
  /\ _get_files_to_upload (local ++ extra) remote w = _get_files_to_upload local remote w.
Proof.
  induction local as [|llo local IH]; intros [|rlo remote] extra w Hlen;
    try discriminate Hlen.
  - split; [|destruct extra; reflexivity]. reflexivity.
  - injection Hlen as Hlen. cbn [app _get_files_to_upload]. run_monad.
    destruct (new_DbfsPath (path rlo)) as [e|p]; [split; reflexivity|].
    cbn [path].
    destruct (IH remote extra
                 (MkWorld (dbfs w) (calls w ++ [FileExists p])) Hlen) as [-> ->].
    split; reflexivity.
Qed.

Lemma credentials_shape credentials :
  _get_credentials_for_request = inr credentials ->
  token_shape credentials \/ user_password_shape credentials.
Proof.
  rewrite credentials_unfold. destruct resolved_config as [config|]; [|discriminate].
  destruct (is_valid config); cbn [negb]; [|discriminate].
  destruct (is_valid_with_token config); intros [= <-].
  - left. apply dom_singleton_L.
  - right. unfold user_password_shape. rewrite dom_insert_L, dom_singleton_L. reflexivity.
Qed.

(** X18.  The profile of the context decides alone where the configuration
    comes from, and a token comes before a user name.  With a profile that
    is not empty, the absence of a configuration for that profile is an
    error, whatever the default configuration; the empty profile is
    treated as no profile, and the default configuration is used; and a
    configuration that is valid with a token gives the token alone, with
    no user name and no password. *)
Theorem X18_profile_and_token_come_first :
  (forall p,
      get_profile_from_context = Some p -> p <> EmptyString ->
      ProfileConfigProvider_get_config p = None ->
      _get_credentials_for_request = inl (InvalidConfigurationError (Some p)))
  /\ (forall config,
         get_profile_from_context = Some EmptyString ->
         get_config = Some config ->
         is_valid config = true -> is_valid_with_token config = true ->
         _get_credentials_for_request = inr {[ "token" := token config ]})
  /\ (forall config credentials,
         resolved_config = Some config ->
         is_valid config = true -> is_valid_with_token config = true ->
         _get_credentials_for_request = inr credentials ->
         credentials !! "token" = Some (token config)
         /\ credentials !! "user" = None /\ credentials !! "password" = None).
Proof.
  split; [|split].
  - intros p Hprofile Hp Hnone. unfold _get_credentials_for_request.
    rewrite Hprofile. destruct p; [contradiction|]. cbn [truthy]. rewrite Hnone.
    reflexivity.
  - intros config Hprofile Hconfig Hvalid Htoken. unfold _get_credentials_for_request.
    rewrite Hprofile. cbn [truthy]. rewrite Hconfig, Hvalid, Htoken. reflexivity.
  - intros config credentials Hconfig Hvalid Htoken. rewrite credentials_unfold.
    rewrite Hconfig, Hvalid, Htoken. cbn [negb]. intros [= <-].
    split; [apply lookup_singleton_eq|]. split; apply lookup_singleton_ne; discriminate.
Qed.

Variable client_delete : string -> Credentials -> option Headers -> option exn.

(** X19.  [delete] resolves the credentials before it calls the service:
    when they cannot be resolved it raises that error and the service is
    not called; otherwise the service is called once, with the pipeline
    id, the headers and credentials of one of the two shapes, and the
    result is that of the service. *)
Theorem X19_delete_calls_the_service_once pipeline_id headers :
  (exists e,
      _get_credentials_for_request = inl e
      /\ PipelinesApi.delete client_delete pipeline_id headers = (inl e, []))
  \/ (exists credentials,
         _get_credentials_for_request = inr credentials
         /\ (token_shape credentials \/ user_password_shape credentials)
         /\ PipelinesApi.delete client_delete pipeline_id headers
            = (match client_delete pipeline_id credentials headers with
               | Some e => inl e
               | None => inr tt
               end,
               [ServiceDelete pipeline_id credentials headers])).
Proof.
  unfold PipelinesApi.delete.
  destruct _get_credentials_for_request as [e|credentials] eqn:Hcred.
  - left. exists e. split; reflexivity.
  - right. exists credentials. split; [reflexivity|].
    split; [apply credentials_shape; exact Hcred|reflexivity].
Qed.

End DeployOutcomes.

(** ** The further properties on concrete inputs *)

Lemma sim_uploads_keep files refused profile config :
  uploads_keep (C := Sim.collaborators files refused profile config).
Proof.
  intros d src dst overwrite r d' p. cbn.
  destruct (existsb (String.eqb src) refused); intros [= <- <-] Hp; [exact Hp|].
  unfold Sim.holds in *. rewrite existsb_app, Hp. reflexivity.
Qed.

Lemma sim_uploads_record files refused profile config :
  uploads_record (C := Sim.collaborators files refused profile config).
Proof.
  intros d src dst overwrite d'. cbn.
  destruct (existsb (String.eqb src) refused); intros [= <-].
  unfold Sim.holds. rewrite existsb_app. cbn [existsb].
  rewrite String.eqb_refl, orb_true_r. reflexivity.
Qed.

Lemma X9_early_failure_witness :
  run_deploy (C := Sim.staging_env) Sim.missing_spec None []
  = (inl (RuntimeError
            "Error 'No such file or directory: /opt/libs/none.jar' while processing /opt/libs/none.jar"),
     MkWorld (C := Sim.staging_env) [] []).
Proof.
  apply (proj2 (X9_early_failure_touches_nothing
                  (C := Sim.staging_env) Sim.missing_spec None [])
               [LibObj "jar" "/opt/libs/a.jar"] (LibObj "jar" "/opt/libs/none.jar") [] []
               "No such file or directory: /opt/libs/none.jar").
  - vm_compute. reflexivity.
  - constructor; [|constructor]. eexists. reflexivity.
  - reflexivity.
Defined.

Lemma X11_uploads_witness :
  false = false
  /\ _get_hashed_path (C := Sim.staging_env) "/opt/libs/a.jar" = inr Sim.remote_a
  /\ exists local rest llo,
      _partition_libraries_and_extract_local_paths (C := Sim.staging_env)
        (lib_objects_of Sim.small_spec) = inr (local, rest)
      /\ In llo local /\ path llo = "/opt/libs/a.jar".
Proof.
  apply (X11_uploads_go_to_the_hashed_path
           (C := Sim.staging_env) Sim.small_spec None []
           "/opt/libs/a.jar" (MkDbfsPath Sim.remote_a) false).
  vm_compute. right. left. reflexivity.
Defined.

Lemma X12_complete_run_witness :
  let data :=
    submitted_spec Sim.small_spec [LibObj "whl" "s3://bucket/e.whl"]
                   [LibObj "jar" Sim.remote_a] {[ "token" := Some "dapi123" ]} in
  run_deploy (C := Sim.staging_env) Sim.small_spec None []
  = (inr tt,
     MkWorld (C := Sim.staging_env) Sim.store_with_a
             (queries_of [LibObj "jar" Sim.remote_a]
                ++ map put_call
                     (plan_of (C := Sim.staging_env) []
                              [LibObj "jar" "/opt/libs/a.jar"] [LibObj "jar" Sim.remote_a])
                ++ [PerformQuery "PUT" ("/pipelines/" +:+ "p1") data None]))
  /\ spec_id data = Some "p1"
  /\ spec_other data = spec_other Sim.small_spec
  /\ spec_credentials data = Some {[ "token" := Some "dapi123" ]}.
Proof.
  apply (X12_complete_run
           (C := Sim.staging_env) Sim.small_spec None []
           [LibObj "jar" "/opt/libs/a.jar"] [LibObj "whl" "s3://bucket/e.whl"]
           [LibObj "jar" Sim.remote_a] Sim.store_with_a
           {[ "token" := Some "dapi123" ]} "p1").
  - exact staging_paths_valid.
  - vm_compute. reflexivity.
  - vm_compute. reflexivity.
  - vm_compute. reflexivity.
  - vm_compute. reflexivity.
  - reflexivity.
Defined.

Lemma X13_credentials_witness :
  run_deploy (C := Sim.no_config_env) Sim.small_spec None []
  = (inl (InvalidConfigurationError None),
     MkWorld (C := Sim.no_config_env) Sim.store_with_a
             (queries_of [LibObj "jar" Sim.remote_a]
                ++ map put_call
                     (plan_of (C := Sim.no_config_env) []
                              [LibObj "jar" "/opt/libs/a.jar"]
                              [LibObj "jar" Sim.remote_a]))).
Proof.
  apply (X13_credentials_fail_after_the_uploads
           (C := Sim.no_config_env) Sim.small_spec None []
           [LibObj "jar" "/opt/libs/a.jar"] [LibObj "whl" "s3://bucket/e.whl"]
           [LibObj "jar" Sim.remote_a] Sim.store_with_a).
  - intros s. reflexivity.
  - vm_compute. reflexivity.
  - vm_compute. reflexivity.
  - vm_compute. reflexivity.
  - vm_compute. reflexivity.
Defined.

Lemma staging_scheme_dbfs (s : string) :
  urlsplit_scheme (Collaborators := Sim.staging_env) (base_pipelines_dir +:+ s) = inr "dbfs".
Proof. reflexivity. Qed.

Lemma X14_second_deploy_witness :
  let data :=
    submitted_spec Sim.small_spec [LibObj "whl" "s3://bucket/e.whl"]
                   [LibObj "jar" Sim.remote_a] {[ "token" := Some "dapi123" ]} in
  spec_after_deploy (C := Sim.staging_env) Sim.small_spec None [] = data
  /\ calls (snd (run_deploy (C := Sim.staging_env) data None Sim.store_with_a))
     = [PerformQuery "PUT" ("/pipelines/" +:+ "p1") data None]
  /\ dbfs (snd (run_deploy (C := Sim.staging_env) data None Sim.store_with_a))
     = Sim.store_with_a
  /\ spec_after_deploy (C := Sim.staging_env) data None Sim.store_with_a = data
  /\ plan_of (C := Sim.staging_env) Sim.store_with_a
             [LibObj "jar" "/opt/libs/a.jar"] [LibObj "jar" Sim.remote_a] = []
  /\ calls (snd (run_deploy (C := Sim.staging_env) Sim.small_spec None Sim.store_with_a))
     = queries_of [LibObj "jar" Sim.remote_a]
         ++ [PerformQuery "PUT" ("/pipelines/" +:+ "p1") data None]
  /\ dbfs (snd (run_deploy (C := Sim.staging_env) Sim.small_spec None Sim.store_with_a))
     = Sim.store_with_a.
Proof.
  intros data.
  destruct (X14_second_deploy_uploads_nothing
              (C := Sim.staging_env) Sim.small_spec None []
              [LibObj "jar" "/opt/libs/a.jar"] [LibObj "whl" "s3://bucket/e.whl"]
              [LibObj "jar" Sim.remote_a] Sim.store_with_a
              {[ "token" := Some "dapi123" ]} "p1"
              staging_scheme_dbfs staging_paths_valid
              ltac:(vm_compute; reflexivity) ltac:(vm_compute; reflexivity)
              ltac:(vm_compute; reflexivity) ltac:(vm_compute; reflexivity) eq_refl)
    as (Hafter & Hcalls & Hstore & Hagain & Hfresh).
  split; [exact Hafter|]. split; [exact Hcalls|]. split; [exact Hstore|].
  split; [exact Hagain|].
  exact (Hfresh (sim_uploads_keep _ _ _ _) (sim_uploads_record _ _ _ _)).
Defined.

Lemma X15_no_library_witness :
  calls (snd (run_deploy (C := Sim.staging_env) Sim.bare_spec None []))
  = [PerformQuery "PUT" ("/pipelines/" +:+ "p1")
                  (submitted_spec Sim.bare_spec [] [] {[ "token" := Some "dapi123" ]}) None]
  /\ dbfs (snd (run_deploy (C := Sim.staging_env) Sim.bare_spec None [])) = []
  /\ spec_libraries (submitted_spec Sim.bare_spec [] [] {[ "token" := Some "dapi123" ]})
     = Some [].
Proof.
  apply (X15_no_library_means_no_store_access
           (C := Sim.staging_env) Sim.bare_spec None [] {[ "token" := Some "dapi123" ]} "p1").
  - left. reflexivity.
  - vm_compute. reflexivity.
  - reflexivity.
Defined.

Lemma X16_same_content_witness :
  _get_hashed_path (C := Sim.twin_env) "/opt/libs/x.jar" = inr Sim.remote_a
  /\ _get_hashed_path (C := Sim.twin_env) "/srv/y.jar" = inr Sim.remote_a
  /\ exists before between after,
      forall log,
        _get_files_to_upload (C := Sim.twin_env)
          ([] ++ LibObj "jar" "/opt/libs/x.jar" :: [] ++ LibObj "jar" "/srv/y.jar" :: [])
          [LibObj "jar" Sim.remote_a; LibObj "jar" Sim.remote_a]
          (MkWorld (C := Sim.twin_env) [] log)
        = (inr (before
                  ++ (LibObj "jar" "/opt/libs/x.jar", LibObj "jar" (MkDbfsPath Sim.remote_a))
                  :: between
                  ++ (LibObj "jar" "/srv/y.jar", LibObj "jar" (MkDbfsPath Sim.remote_a))
                  :: after),
           MkWorld (C := Sim.twin_env) []
                   (log ++ queries_of [LibObj "jar" Sim.remote_a;
                                       LibObj "jar" Sim.remote_a])).
Proof.
  apply (X16_same_content_is_planned_twice
           (C := Sim.twin_env) [] [] (LibObj "jar" "/opt/libs/x.jar") []
           (LibObj "jar" "/srv/y.jar") []
           [LibObj "jar" Sim.remote_a; LibObj "jar" Sim.remote_a] [x61; x62; x63]).
  - intros s. reflexivity.
  - vm_compute. reflexivity.
  - reflexivity.
  - reflexivity.
  - vm_compute. reflexivity.
  - reflexivity.
Defined.

Lemma X17_planner_witness :
  _get_files_to_upload (C := Sim.staging_env) Sim.three_local
    (Sim.three_remote ++ [LibObj "jar" "not-a-dbfs-path"])
    (MkWorld (C := Sim.staging_env) [] [])
  = _get_files_to_upload (C := Sim.staging_env) Sim.three_local Sim.three_remote
      (MkWorld (C := Sim.staging_env) [] [])
  /\ _get_files_to_upload (C := Sim.staging_env)
       (Sim.three_local ++ [LibObj "jar" "not-a-dbfs-path"]) Sim.three_remote
       (MkWorld (C := Sim.staging_env) [] [])
     = _get_files_to_upload (C := Sim.staging_env) Sim.three_local Sim.three_remote
         (MkWorld (C := Sim.staging_env) [] []).
Proof.
  apply (X17_planner_stops_at_the_shorter_list (C := Sim.staging_env)).
  reflexivity.
Defined.

Lemma X18_profile_witness :
  _get_credentials_for_request (C := Sim.profile_env)
  = inl (InvalidConfigurationError (Some "prod")).
Proof.
  apply (proj1 (X18_profile_and_token_come_first (C := Sim.profile_env)) "prod").
  - reflexivity.
  - discriminate.
  - reflexivity.
Defined.
